(** * mysql_mcp_server: a shallow embedding of [server_new.py]

    The server keeps one process-wide record, [CONNECTION_STATE], and
    answers four kinds of request: list the tables as resources, read a
    table, and the tools [connect], [disconnect], [connection_status] and
    [execute_sql].  Every data operation opens its own short-lived
    connection through the MySQL driver.

    Modelling choices.
    - Python [str] values are byte strings (their UTF-8 encoding).
      [strip] removes the whitespace Python removes, in and beyond ASCII;
      [upper] and [int] say in their comments what they leave out.
    - The URL type of the resources ([pydantic.AnyUrl]) is outside the
      repository.  It is an oracle of the [world]: given a text it says
      whether the text is accepted and what the URL reads as afterwards.
    - Values that arrive untyped (tool arguments, cells of a result row)
      are [pyval]s: [None], booleans, integers and strings.
    - The driver [mysql.connector] is outside the repository.  It is an
      oracle of the [world]: given the configuration and the statement it
      says whether opening/executing raised, what the cursor holds, and
      whether leaving the [with] blocks raised.
    - Handlers are computations in a small monad threading
      [CONNECTION_STATE], recording each connection that is opened, and
      propagating Python exceptions. *)

From Stdlib Require Import ZArith String Ascii List DecimalString Lia.
From stdpp Require Import base gmap strings list.

Local Open Scope Z_scope.

(** ** Python values and exceptions *)

Inductive pyval : Type :=
| PNone
| PBool (b : bool)
| PInt (z : Z)
| PStr (s : string).

(** [bool(v)]: what [if v], [not v] and [all] test. *)
Definition truthy (v : pyval) : bool :=
  match v with
  | PNone => false
  | PBool b => b
  | PInt z => negb (z =? 0)
  | PStr s => negb (String.eqb s "")
  end.

(** [str(z)] for an integer. *)
Definition str_of_int (z : Z) : string := NilZero.string_of_int (Z.to_int z).

(** [str(v)], also what an f-string substitutes for [{v}]. *)
Definition py_str (v : pyval) : string :=
  match v with
  | PNone => "None"
  | PBool true => "True"
  | PBool false => "False"
  | PInt z => str_of_int z
  | PStr s => s
  end.

(** The exceptions that can cross the handlers.  [OperationalError] and
    [Error] are the driver's classes ([Error] stands for every subclass of
    [mysql.connector.Error] other than [OperationalError]); their payload
    is [str(e)].  [IntLiteralError s] is the [ValueError] that [int(s)]
    raises on a string that is not an integer literal; [ValidationError]
    is the one pydantic raises, a ValueError as well. *)
Inductive exn : Type :=
| OperationalError (msg : string)
| Error (msg : string)
| ValueError (msg : string)
| IntLiteralError (s : string)
| ValidationError
| TypeError
| AttributeError
| IndexError
| OtherException (name : string).

(** [isinstance(e, ValueError)] *)
Definition is_ValueError (e : exn) : bool :=
  match e with
  | ValueError _ | IntLiteralError _ | ValidationError => true
  | _ => false
  end.

(** ** Text primitives *)

Definition code (c : ascii) : N := N_of_ascii c.

Definition in_range (lo hi c : ascii) : bool :=
  (code lo <=? code c)%N && (code c <=? code hi)%N.

(** The one-byte characters that [str.strip()] removes:
    TAB, LF, VT, FF, CR, FS, GS, RS, US and space. *)
Definition is_space (c : ascii) : bool :=
  in_range "009" "013" c || in_range "028" "032" c.

(** The whitespace beyond ASCII, in UTF-8.  U+0085 and U+00A0 take two
    bytes; U+1680, U+2000 to U+200A, U+2028, U+2029, U+202F, U+205F and
    U+3000 take three. *)
Definition is_space2 (c1 c2 : ascii) : bool :=
  (code c1 =? 194)%N && ((code c2 =? 133) || (code c2 =? 160))%N.

Definition is_space3 (c1 c2 c3 : ascii) : bool :=
  ((code c1 =? 225) && (code c2 =? 154) && (code c3 =? 128))%N
  || ((code c1 =? 226) && (code c2 =? 128)
      && (((128 <=? code c3) && (code c3 <=? 138))
          || (code c3 =? 168) || (code c3 =? 169) || (code c3 =? 175)))%N
  || ((code c1 =? 226) && (code c2 =? 129) && (code c3 =? 159))%N
  || ((code c1 =? 227) && (code c2 =? 128) && (code c3 =? 128))%N.

(** Drop the leading whitespace: the one-byte characters accepted by [one]
    and the characters beyond ASCII. *)
Fixpoint lstrip_with (one : ascii -> bool) (s : string) : string :=
  match s with
  | String c1 s1 =>
      if one c1 then lstrip_with one s1
      else match s1 with
           | String c2 s2 =>
               if is_space2 c1 c2 then lstrip_with one s2
               else match s2 with
                    | String c3 s3 =>
                        if is_space3 c1 c2 c3 then lstrip_with one s3 else s
                    | EmptyString => s
                    end
           | EmptyString => s
           end
  | EmptyString => EmptyString
  end.

(** The same on the reversed text, where the bytes of a character come
    last byte first. *)
Fixpoint lstrip_reversed (one : ascii -> bool) (s : string) : string :=
  match s with
  | String c1 s1 =>
      if one c1 then lstrip_reversed one s1
      else match s1 with
           | String c2 s2 =>
               if is_space2 c2 c1 then lstrip_reversed one s2
               else match s2 with
                    | String c3 s3 =>
                        if is_space3 c3 c2 c1 then lstrip_reversed one s3 else s
                    | EmptyString => s
                    end
           | EmptyString => s
           end
  | EmptyString => EmptyString
  end.

Definition rstrip_with (one : ascii -> bool) (s : string) : string :=
  String.rev (lstrip_reversed one (String.rev s)).

Definition lstrip (s : string) : string := lstrip_with is_space s.

Definition rstrip (s : string) : string := rstrip_with is_space s.

(** [s.strip()] *)
Definition strip (s : string) : string := rstrip (lstrip s).

Definition upper_char (c : ascii) : ascii :=
  if in_range "a" "z" c then ascii_of_N (code c - 32) else c.

(** The characters beyond ASCII whose upper case holds an ASCII letter,
    with that upper case, in UTF-8: two-byte characters, then three-byte
    ones. *)
Definition upper2 (c1 c2 : ascii) : option string :=
  match code c1, code c2 with
  | 195%N, 159%N => Some (String "083" (String "083" EmptyString))   (* U+00DF *)
  | 196%N, 177%N => Some (String "073" EmptyString)   (* U+0131 *)
  | 197%N, 137%N => Some (String "202" (String "188" (String "078" EmptyString)))   (* U+0149 *)
  | 197%N, 191%N => Some (String "083" EmptyString)   (* U+017F *)
  | 199%N, 176%N => Some (String "074" (String "204" (String "140" EmptyString)))   (* U+01F0 *)
  | _, _ => None
  end.

Definition upper3 (c1 c2 c3 : ascii) : option string :=
  match code c1, code c2, code c3 with
  | 225%N, 186%N, 150%N => Some (String "072" (String "204" (String "177" EmptyString)))   (* U+1E96 *)
  | 225%N, 186%N, 151%N => Some (String "084" (String "204" (String "136" EmptyString)))   (* U+1E97 *)
  | 225%N, 186%N, 152%N => Some (String "087" (String "204" (String "138" EmptyString)))   (* U+1E98 *)
  | 225%N, 186%N, 153%N => Some (String "089" (String "204" (String "138" EmptyString)))   (* U+1E99 *)
  | 225%N, 186%N, 154%N => Some (String "065" (String "202" (String "190" EmptyString)))   (* U+1E9A *)
  | 239%N, 172%N, 128%N => Some (String "070" (String "070" EmptyString))   (* U+FB00 *)
  | 239%N, 172%N, 129%N => Some (String "070" (String "073" EmptyString))   (* U+FB01 *)
  | 239%N, 172%N, 130%N => Some (String "070" (String "076" EmptyString))   (* U+FB02 *)
  | 239%N, 172%N, 131%N => Some (String "070" (String "070" (String "073" EmptyString)))   (* U+FB03 *)
  | 239%N, 172%N, 132%N => Some (String "070" (String "070" (String "076" EmptyString)))   (* U+FB04 *)
  | 239%N, 172%N, 133%N => Some (String "083" (String "084" EmptyString))   (* U+FB05 *)
  | 239%N, 172%N, 134%N => Some (String "083" (String "084" EmptyString))   (* U+FB06 *)
  | _, _, _ => None
  end.

(** [s.upper()].  ASCII letters and the characters of [upper2] and
    [upper3] are mapped as Python maps them.  Any other character beyond
    ASCII is left as it is: its upper case holds no ASCII character either,
    so no comparison with ASCII text tells the two apart. *)
Fixpoint upper (s : string) : string :=
  match s with
  | String c1 s1 =>
      match s1 with
      | String c2 s2 =>
          match upper2 c1 c2 with
          | Some u => u +:+ upper s2
          | None =>
              match s2 with
              | String c3 s3 =>
                  match upper3 c1 c2 c3 with
                  | Some u => u +:+ upper s3
                  | None => String (upper_char c1) (upper s1)
                  end
              | EmptyString => String (upper_char c1) (upper s1)
              end
          end
      | EmptyString => String (upper_char c1) EmptyString
      end
  | EmptyString => EmptyString
  end.

(** [s.startswith(p)] *)
Definition startswith (s p : string) : bool := String.prefix p s.

(** [s[n:]] *)
Fixpoint drop_chars (n : nat) (s : string) : string :=
  match n, s with
  | O, _ => s
  | S n', String _ s' => drop_chars n' s'
  | S _, EmptyString => EmptyString
  end.

(** [s.split(sep)] for a one-character separator. *)
Fixpoint split (sep : ascii) (s : string) : list string :=
  match s with
  | EmptyString => [EmptyString]
  | String c s' =>
      if Ascii.eqb c sep then EmptyString :: split sep s'
      else match split sep s' with
           | h :: t => String c h :: t
           | [] => [String c EmptyString]
           end
  end.

(** [sep.join(l)] *)
Definition join (sep : string) (l : list string) : string := String.concat sep l.

(** The one-character string ["\n"]. *)
Definition newline : string := String "010" EmptyString.

(** *** [int(s)] on a string

    Surrounding whitespace, an optional sign, then decimal digits in which
    a single underscore may separate two digits.  Around the number [int]
    skips TAB, LF, VT, FF, CR, space and the whitespace beyond ASCII, but
    not FS, GS, RS and US.  Two things are left out: decimal digits beyond
    ASCII, which [int] accepts, and the interpreter's limit on the number
    of digits (4300 unless configured, never below 640).  [int_text] is the
    text on which neither matters. *)

Definition is_int_space (c : ascii) : bool :=
  in_range "009" "013" c || Ascii.eqb c " ".

Definition int_strip (s : string) : string :=
  rstrip_with is_int_space (lstrip_with is_int_space s).

Definition digit_val (c : ascii) : option Z :=
  if in_range "0" "9" c then Some (Z.of_N (code c) - 48) else None.

(** Decimal digits, single underscores allowed between two digits. *)
Fixpoint digits_go (acc : Z) (after_digit : bool) (s : string) : option Z :=
  match s with
  | EmptyString => if after_digit then Some acc else None
  | String c s' =>
      match digit_val c with
      | Some d => digits_go (10 * acc + d) true s'
      | None =>
          if Ascii.eqb c "_" && after_digit then digits_go acc false s'
          else None
      end
  end.

Definition int_literal (s : string) : option Z :=
  match int_strip s with
  | String "+" r => digits_go 0 false r
  | String "-" r => Z.opp <$> digits_go 0 false r
  | t => digits_go 0 false t
  end.



Definition int_of_str (s : string) : exn + Z :=
  match int_literal s with
  | Some z => inr z
  | None => inl (IntLiteralError s)
  end.

(** [int(v)] *)
Definition py_int (v : pyval) : exn + Z :=
  match v with
  | PNone => inl TypeError
  | PBool b => inr (Z.b2z b)
  | PInt z => inr z
  | PStr s => int_of_str s
  end.

(** *** [urllib.parse.quote(s)] with its default [safe='/'] *)

Definition always_safe (c : ascii) : bool :=
  in_range "A" "Z" c || in_range "a" "z" c || in_range "0" "9" c
  || Ascii.eqb c "_" || Ascii.eqb c "." || Ascii.eqb c "-" || Ascii.eqb c "~".

Definition hex_digit (n : N) : ascii :=
  if (n <? 10)%N then ascii_of_N (48 + n) else ascii_of_N (55 + n).

(** ['%{:02X}'.format(c)] *)
Definition percent (c : ascii) : string :=
  String "%" (String (hex_digit (code c / 16)) (String (hex_digit (code c mod 16)) EmptyString)).

Definition quote_char (c : ascii) : string :=
  if always_safe c || Ascii.eqb c "/" then String c EmptyString else percent c.

Fixpoint quote (s : string) : string :=
  match s with
  | EmptyString => EmptyString
  | String c s' => quote_char c +:+ quote s'
  end.

(** [quote(v)]: anything that is not text is refused. *)
Definition py_quote (v : pyval) : exn + string :=
  match v with
  | PStr s => inr (quote s)
  | _ => inl TypeError
  end.

(** ** Configuration loader *)

Record db_config : Type := {
  host : pyval;
  port : Z;
  user : pyval;
  password : pyval;
  database : pyval;
  charset : string;
  connection_timeout : Z;
  get_warnings : bool
}.

(** [os.getenv(k)] *)
Definition getenv (environ : gmap string string) (k : string) : pyval :=
  match environ !! k with
  | Some v => PStr v
  | None => PNone
  end.

(** [os.getenv(k, d)] *)
Definition getenv_or (environ : gmap string string) (k d : string) : string :=
  default d (environ !! k).

(** [all(l)] *)
Definition all (l : list pyval) : bool := forallb truthy l.

Definition get_db_config (environ : gmap string string) : exn + db_config :=
  match int_of_str (getenv_or environ "MYSQL_PORT" "3306") with
  | inl e => inl e
  | inr p =>
      match int_of_str (getenv_or environ "MYSQL_CONNECTION_TIMEOUT" "5") with
      | inl e => inl e
      | inr t =>
          let config :=
            {| host := PStr (getenv_or environ "MYSQL_HOST" "localhost");
               port := p;
               user := getenv environ "MYSQL_USER";
               password := getenv environ "MYSQL_PASSWORD";
               database := getenv environ "MYSQL_DATABASE";
               charset := getenv_or environ "MYSQL_CHARSET" "utf8";
               connection_timeout := t;
               get_warnings := true |} in
          if negb (all [user config; password config; database config])
          then inl (ValueError "Missing required database configuration")
          else inr config
      end
  end.

(** ** Connection state *)

Record details : Type := {
  details_host : pyval;
  details_port : Z;
  details_user : pyval;
  details_database : pyval
}.

Record ConnectionState : Type := {
  is_connected : bool;
  last_error : option string;
  connection_details : option details
}.

(** The module-level dictionary as the process starts. *)
Definition CONNECTION_STATE : ConnectionState :=
  {| is_connected := false; last_error := None; connection_details := None |}.

(** ** The driver and the world *)

(** What the handlers read from a cursor after [cursor.execute]. *)
Record cursor : Type := {
  description : option (list string);
  fetchall : exn + list (list pyval);
  rowcount : Z;
  commit : option exn
}.

(** One pass through
    [with connect( **config) as conn: with conn.cursor() as cursor:
       cursor.execute(stmt) ...]:
    either [connect], [cursor()] or [execute] raises, or the body runs on
    a cursor and leaving the two [with] blocks raises [closing], if any. *)
Inductive session : Type :=
| Refused (e : exn)
| Served (c : cursor) (closing : option exn).

(** [any_url] stands for [pydantic.AnyUrl], through which
    [mcp.types.Resource] takes its [uri]: [None] when the library rejects
    the text, otherwise [str()] of the URL it keeps, which may be a
    normalised form of the text. *)
Record world : Type := {
  environ : gmap string string;
  mysql : db_config -> pyval -> session;
  any_url : string -> option string
}.

(** ** The handler monad *)

#[projections(primitive)]
Record outcome (A : Type) : Type := {
  value : exn + A;
  state : ConnectionState;
  opened : list (db_config * pyval)
}.
Arguments value {A} _.
Arguments state {A} _.
Arguments opened {A} _.

Definition M (A : Type) : Type := ConnectionState -> outcome A.

Definition ret {A} (a : A) : M A :=
  fun st => {| value := inr a; state := st; opened := [] |}.

Definition raise {A} (e : exn) : M A :=
  fun st => {| value := inl e; state := st; opened := [] |}.

Definition bind {A B} (m : M A) (f : A -> M B) : M B :=
  fun st =>
    let o := m st in
    match value o with
    | inl e => {| value := inl e; state := state o; opened := opened o |}
    | inr a =>
        let o' := f a (state o) in
        {| value := value o'; state := state o'; opened := opened o ++ opened o' |}
    end.

#[global] Instance M_ret : MRet M := @ret.
#[global] Instance M_bind : MBind M := fun A B f m => bind m f.

Definition lift {A} (r : exn + A) : M A :=
  match r with
  | inl e => raise e
  | inr a => ret a
  end.

Definition get_state : M ConnectionState :=
  fun st => {| value := inr st; state := st; opened := [] |}.

Definition modify (f : ConnectionState -> ConnectionState) : M unit :=
  fun st => {| value := inr tt; state := f st; opened := [] |}.

(** [CONNECTION_STATE[key] = v], one definition per key. *)
Definition set_is_connected (b : bool) : M unit :=
  modify (fun st => {| is_connected := b;
                       last_error := last_error st;
                       connection_details := connection_details st |}).

Definition set_last_error (e : option string) : M unit :=
  modify (fun st => {| is_connected := is_connected st;
                       last_error := e;
                       connection_details := connection_details st |}).

Definition set_connection_details (d : option details) : M unit :=
  modify (fun st => {| is_connected := is_connected st;
                       last_error := last_error st;
                       connection_details := d |}).

(** [try: m  except ...: h e]; [h e = None] when no clause matches [e]. *)
Definition try_except {A} (m : M A) (h : exn -> option (M A)) : M A :=
  fun st =>
    let o := m st in
    match value o with
    | inr _ => o
    | inl e =>
        match h e with
        | None => o
        | Some k =>
            let o' := k (state o) in
            {| value := value o'; state := state o'; opened := opened o ++ opened o' |}
        end
    end.

(** Leaving the [with] blocks: an exception raised there replaces whatever
    the body returned or raised. *)
Definition leaving {A} (closing : option exn) (m : M A) : M A :=
  fun st =>
    let o := m st in
    match closing with
    | Some e => {| value := inl e; state := state o; opened := opened o |}
    | None => o
    end.

Section Handlers.
Variable w : world.

(** The two nested [with] blocks around [cursor.execute(stmt)]. *)
Definition with_cursor {A} (config : db_config) (stmt : pyval)
    (body : cursor -> M A) : M A :=
  fun st =>
    match mysql w config stmt with
    | Refused e => {| value := inl e; state := st; opened := [(config, stmt)] |}
    | Served c closing =>
        let o := leaving closing (body c) st in
        {| value := value o; state := state o;
           opened := (config, stmt) :: opened o |}
    end.

(** [[desc[0] for desc in cursor.description]] *)
Definition columns_of (c : cursor) : M (list string) :=
  match description c with
  | Some cols => ret cols
  | None => raise TypeError
  end.

(** The text both SELECT paths build from the column names and rows. *)
Definition format_rows (columns : list string) (rows : list (list pyval)) : string :=
  let result := map (fun row => join "," (map py_str row)) rows in
  join newline ([join "," columns] ++ result).

(** [table[0]] *)
Definition first_cell (row : list pyval) : M pyval :=
  match row with
  | v :: _ => ret v
  | [] => raise IndexError
  end.

(** [uri] is [str()] of the URL the resource holds. *)
Record Resource : Type := {
  uri : string;
  name : string;
  mimeType : string;
  description_ : string
}.

(** [AnyUrl(text)], as the constructor of [Resource] calls it. *)
Definition validate_uri (text : string) : M string :=
  match any_url w text with
  | Some u => ret u
  | None => raise ValidationError
  end.

(** The loop of [list_resources] over the fetched rows. *)
Fixpoint resources_of (tables : list (list pyval)) : M (list Resource) :=
  match tables with
  | [] => ret []
  | table :: rest =>
      table_name ← first_cell table;
      encoded_table_name ← lift (py_quote table_name);
      u ← validate_uri ("mysql://" +:+ encoded_table_name +:+ "/data");
      let r := {| uri := u;
                  name := "Table: " +:+ py_str table_name;
                  mimeType := "text/plain";
                  description_ := "Data in table: " +:+ py_str table_name |} in
      resources ← resources_of rest;
      ret (r :: resources)
  end.

Definition list_resources : M (list Resource) :=
  st ← get_state;
  if negb (is_connected st) then ret []
  else
    config ← lift (get_db_config (environ w));
    try_except
      (with_cursor config (PStr "SHOW TABLES") (fun cursor =>
         tables ← lift (fetchall cursor);
         resources_of tables))
      (fun e =>
         match e with
         | OperationalError m =>
             Some (set_is_connected false ;;
                   set_last_error (Some m) ;;
                   ret [])
         | Error _ => Some (ret [])
         | _ => None
         end).

(** [parts = uri_str[8:].split('/'); table = parts[0]] *)
Definition table_of_uri (uri_str : string) : string :=
  let parts := split "/" (drop_chars 8 uri_str) in
  hd EmptyString parts.

Definition read_resource (uri_str : string) : M string :=
  st ← get_state;
  if negb (is_connected st)
  then ret "Error: Not connected to MySQL. Please use the 'connect' tool first."
  else
    config ← lift (get_db_config (environ w));
    if negb (startswith uri_str "mysql://")
    then raise (ValueError ("Invalid URI scheme: " +:+ uri_str))
    else
      let table := table_of_uri uri_str in
      try_except
        (with_cursor config (PStr ("SELECT * FROM " +:+ table +:+ " LIMIT 100"))
           (fun cursor =>
              columns ← columns_of cursor;
              rows ← lift (fetchall cursor);
              ret (format_rows columns rows)))
        (fun e =>
           match e with
           | OperationalError m =>
               Some (set_is_connected false ;;
                     set_last_error (Some m) ;;
                     ret ("Error: Connection to MySQL lost. " +:+ m))
           | Error m => Some (ret ("Error: " +:+ m))
           | _ => None
           end).
End Handlers.

(** ** Tool dispatcher *)

Record TextContent : Type := { type : string; text : string }.

(** [[TextContent(type="text", text=t)]] *)
Definition text_content (t : string) : list TextContent :=
  [{| type := "text"; text := t |}].

Definition set_host (v : pyval) (c : db_config) : db_config :=
  {| host := v; port := port c; user := user c; password := password c;
     database := database c; charset := charset c;
     connection_timeout := connection_timeout c; get_warnings := get_warnings c |}.
Definition set_port (p : Z) (c : db_config) : db_config :=
  {| host := host c; port := p; user := user c; password := password c;
     database := database c; charset := charset c;
     connection_timeout := connection_timeout c; get_warnings := get_warnings c |}.
Definition set_user (v : pyval) (c : db_config) : db_config :=
  {| host := host c; port := port c; user := v; password := password c;
     database := database c; charset := charset c;
     connection_timeout := connection_timeout c; get_warnings := get_warnings c |}.
Definition set_password (v : pyval) (c : db_config) : db_config :=
  {| host := host c; port := port c; user := user c; password := v;
     database := database c; charset := charset c;
     connection_timeout := connection_timeout c; get_warnings := get_warnings c |}.
Definition set_database (v : pyval) (c : db_config) : db_config :=
  {| host := host c; port := port c; user := user c; password := password c;
     database := v; charset := charset c;
     connection_timeout := connection_timeout c; get_warnings := get_warnings c |}.

(** [if key in arguments: config[key] = arguments[key]] *)
Definition override (arguments : gmap string pyval) (key : string)
    (set : pyval -> db_config -> db_config) (config : db_config) : db_config :=
  match arguments !! key with
  | Some v => set v config
  | None => config
  end.

(** [if "port" in arguments: config["port"] = int(arguments["port"])] *)
Definition override_port (arguments : gmap string pyval) (config : db_config) : M db_config :=
  match arguments !! "port" with
  | Some v => p ← lift (py_int v); ret (set_port p config)
  | None => ret config
  end.

(** The value must be text: [query.strip()], ["..." + v], ["\n".join]. *)
Definition as_text (on_other : exn) (v : pyval) : M string :=
  match v with
  | PStr s => ret s
  | _ => raise on_other
  end.

(** [[table[0] for table in tables]] followed by the check [join] makes. *)
Fixpoint first_cells (tables : list (list pyval)) : M (list pyval) :=
  match tables with
  | [] => ret []
  | table :: rest =>
      match table with
      | v :: _ => vs ← first_cells rest; ret (v :: vs)
      | [] => raise IndexError
      end
  end.

Fixpoint all_text (l : list pyval) : M (list string) :=
  match l with
  | [] => ret []
  | v :: rest => s ← as_text TypeError v; ss ← all_text rest; ret (s :: ss)
  end.

(** [conn.commit()] *)
Definition do_commit (c : cursor) : M unit :=
  match commit c with
  | Some e => raise e
  | None => ret tt
  end.

Section Dispatcher.
Variable w : world.

Definition tool_connect (arguments : gmap string pyval) : M (list TextContent) :=
  try_except
    (config ← lift (get_db_config (environ w));
     let config := override arguments "host" set_host config in
     config ← override_port arguments config;
     let config := override arguments "user" set_user config in
     let config := override arguments "password" set_password config in
     let config := override arguments "database" set_database config in
     with_cursor w config (PStr "SELECT 1") (fun cursor =>
       set_is_connected true ;;
       set_last_error None ;;
       set_connection_details
         (Some {| details_host := host config;
                  details_port := port config;
                  details_user := user config;
                  details_database := database config |}) ;;
       ret (text_content
              ("Successfully connected to MySQL at " +:+ py_str (host config)
               +:+ ":" +:+ str_of_int (port config)
               +:+ " as " +:+ py_str (user config)
               +:+ " (database: " +:+ py_str (database config) +:+ ")"))))
    (fun e =>
       match e with
       | OperationalError m =>
           Some (set_is_connected false ;;
                 set_last_error (Some m) ;;
                 ret (text_content ("Failed to connect to MySQL: " +:+ m)))
       | Error m =>
           Some (set_is_connected false ;;
                 set_last_error (Some m) ;;
                 ret (text_content ("Database error: " +:+ m)))
       | _ => None
       end).

Definition tool_disconnect : M (list TextContent) :=
  set_is_connected false ;;
  set_last_error None ;;
  ret (text_content "Disconnected from MySQL.").

Definition tool_connection_status : M (list TextContent) :=
  st ← get_state;
  if is_connected st then
    match connection_details st with
    | Some details =>
        ret (text_content
               ("Connected to MySQL at " +:+ py_str (details_host details)
                +:+ ":" +:+ str_of_int (details_port details)
                +:+ " as " +:+ py_str (details_user details)
                +:+ " (database: " +:+ py_str (details_database details) +:+ ")"))
    | None => raise TypeError
    end
  else
    let error_msg :=
      match last_error st with
      | Some e => if truthy (PStr e) then " Last error: " +:+ e else ""
      | None => ""
      end in
    ret (text_content ("Not connected to MySQL." +:+ error_msg)).

Definition tool_execute_sql (arguments : gmap string pyval) : M (list TextContent) :=
  st ← get_state;
  if negb (is_connected st)
  then ret (text_content "Not connected to MySQL. Please use the 'connect' tool first.")
  else
    let query := default PNone (arguments !! "query") in
    if negb (truthy query) then raise (ValueError "Query is required")
    else
      try_except
        (config ← lift (get_db_config (environ w));
         with_cursor w config query (fun cursor =>
           q ← as_text AttributeError query;
           if startswith (upper (strip q)) "SHOW TABLES" then
             tables ← lift (fetchall cursor);
             header ← as_text TypeError (database config);
             cells ← first_cells tables;
             result ← all_text cells;
             ret (text_content (join newline (("Tables_in_" +:+ header) :: result)))
           else if startswith (upper (strip q)) "SELECT" then
             columns ← columns_of cursor;
             rows ← lift (fetchall cursor);
             ret (text_content (format_rows columns rows))
           else
             do_commit cursor ;;
             ret (text_content ("Query executed successfully. Rows affected: "
                                +:+ str_of_int (rowcount cursor)))))
        (fun e =>
           match e with
           | OperationalError m =>
               Some (set_is_connected false ;;
                     set_last_error (Some m) ;;
                     ret (text_content ("Connection lost: " +:+ m
                             +:+ ". Please reconnect using the 'connect' tool.")))
           | Error m => Some (ret (text_content ("Error executing query: " +:+ m)))
           | _ => None
           end).

Definition call_tool (name : string) (arguments : gmap string pyval)
    : M (list TextContent) :=
  if String.eqb name "connect" then tool_connect arguments
  else if String.eqb name "disconnect" then tool_disconnect
  else if String.eqb name "connection_status" then tool_connection_status
  else if String.eqb name "execute_sql" then tool_execute_sql arguments
  else raise (ValueError ("Unknown tool: " +:+ name)).
End Dispatcher.

(** ** Tool catalog *)

Module Property.
Record t : Type := { type : string; description : string }.
End Property.

(** The [inputSchema] dictionaries; [properties] keeps the order of the
    source. *)
Module Schema.
Record t : Type := {
  type : string;
  properties : list (string * Property.t);
  required : list string
}.
End Schema.

Module Tool.
Record t : Type := {
  name : string;
  description : string;
  inputSchema : Schema.t
}.
End Tool.

Definition list_tools : list Tool.t :=
  [ {| Tool.name := "execute_sql";
       Tool.description := "Execute an SQL query on the MySQL server";
       Tool.inputSchema :=
         {| Schema.type := "object";
            Schema.properties :=
              [("query", {| Property.type := "string";
                            Property.description := "The SQL query to execute" |})];
            Schema.required := ["query"] |} |};
    {| Tool.name := "connect";
       Tool.description := "Connect to the MySQL server";
       Tool.inputSchema :=
         {| Schema.type := "object";
            Schema.properties :=
              [("host", {| Property.type := "string";
                           Property.description :=
                             "MySQL server hostname (defaults to env var or localhost)" |});
               ("port", {| Property.type := "integer";
                           Property.description :=
                             "MySQL server port (defaults to env var or 3306)" |});
               ("user", {| Property.type := "string";
                           Property.description :=
                             "MySQL username (defaults to env var)" |});
               ("password", {| Property.type := "string";
                               Property.description :=
                                 "MySQL password (defaults to env var)" |});
               ("database", {| Property.type := "string";
                               Property.description :=
                                 "MySQL database name (defaults to env var)" |})];
            Schema.required := [] |} |};
    {| Tool.name := "disconnect";
       Tool.description := "Disconnect from the MySQL server";
       Tool.inputSchema :=
         {| Schema.type := "object"; Schema.properties := []; Schema.required := [] |} |};
    {| Tool.name := "connection_status";
       Tool.description := "Check the current MySQL connection status";
       Tool.inputSchema :=
         {| Schema.type := "object"; Schema.properties := []; Schema.required := [] |} |} ].

(** ** Startup *)

(** [main] up to the point where it hands the streams to the transport:
    the state is reset, the configuration is loaded only to be logged, and
    whatever loading raises is logged and dropped. *)
Definition main (w : world) : M unit :=
  set_is_connected false ;;
  set_last_error None ;;
  try_except
    (config ← lift (get_db_config (environ w)); ret tt)
    (fun e => Some (ret tt)).

(** ** Sequences of requests *)

Inductive request : Type :=
| ListResources
| ReadResource (uri_str : string)
| CallTool (name : string) (arguments : gmap string pyval).

(** The state one request leaves behind, in the world it ran in. *)
Definition step (w : world) (r : request) (st : ConnectionState) : ConnectionState :=
  match r with
  | ListResources => state (list_resources w st)
  | ReadResource u => state (read_resource w u st)
  | CallTool n a => state (call_tool w n a st)
  end.

(** The world may change between requests, so each comes with its own. *)
Fixpoint run (trace : list (world * request)) (st : ConnectionState) : ConnectionState :=
  match trace with
  | [] => st
  | (w, r) :: rest => run rest (step w r st)
  end.

(** * Properties *)

(** ** Definitions used in the statements *)

Definition sample_environ : gmap string string :=
  <["MYSQL_USER" := "u"]> (<["MYSQL_PASSWORD" := "p"]> (<["MYSQL_DATABASE" := "d"]> ∅)).

(** Table [t] with columns [(a, b)] and rows [(1, 'x')], [(2, 'y')]. *)
Definition sample_cursor : cursor :=
  {| description := Some ["a"; "b"];
     fetchall := inr [[PInt 1; PStr "x"]; [PInt 2; PStr "y"]];
     rowcount := 2;
     commit := None |}.

(** A live server that serves [sample_cursor] whatever is asked. *)
Definition live_world : world :=
  {| environ := sample_environ; mysql := fun _ _ => Served sample_cursor None;
     any_url := Some |}.

(** A live server on which every statement is rejected with message [m]. *)
Definition rejecting_world (m : string) : world :=
  {| environ := sample_environ; mysql := fun _ _ => Refused (Error m); any_url := Some |}.

Definition sample_details : details :=
  {| details_host := PStr "localhost"; details_port := 3306;
     details_user := PStr "u"; details_database := PStr "d" |}.

Definition connected_state : ConnectionState :=
  {| is_connected := true; last_error := None;
     connection_details := Some sample_details |}.

(** The [query] argument is missing or is the empty string. *)
Definition no_query (arguments : gmap string pyval) : Prop :=
  arguments !! "query" = None \/ arguments !! "query" = Some (PStr "").

(** The result of a pure computation does not depend on the state either. *)
Definition pure_M {A} (m : M A) : Prop :=
  exists r, forall st, m st = {| value := r; state := st; opened := [] |}.

(** What a failed connection leaves: the flag down, the message kept, the
    details untouched. *)
Definition lost (m : string) (st : ConnectionState) : ConnectionState :=
  {| is_connected := false; last_error := Some m;
     connection_details := connection_details st |}.

(** The state a successful probe writes. *)
Definition established (d : details) : ConnectionState :=
  {| is_connected := true; last_error := None; connection_details := Some d |}.

(** What holds of every state the server can be in: a raised flag comes
    with the details of the connection and with no recorded error. *)
Definition consistent (st : ConnectionState) : Prop :=
  is_connected st = true ->
  connection_details st <> None /\ last_error st = None.

(** A [connect] that overrides host and port, then an [execute_sql]. *)
Definition override_arguments : gmap string pyval :=
  <["host" := PStr "db.internal"]> (<["port" := PInt 3307]> ∅).

Definition overridden_state : ConnectionState :=
  state (call_tool live_world "connect" override_arguments CONNECTION_STATE).

Definition select_arguments : gmap string pyval :=
  {["query" := PStr "SELECT * FROM t"]}.


(** A live server on which no statement yields a result set: the cursor
    has no description and nothing to fetch. *)
Definition no_result_cursor : cursor :=
  {| description := None;
     fetchall := inl (Error "No result set to fetch from.");
     rowcount := 1;
     commit := None |}.

Definition no_result_world : world :=
  {| environ := sample_environ; mysql := fun _ _ => Served no_result_cursor None;
     any_url := Some |}.

(** The driver raised an [Error] that is not an OperationalError, either
    while connecting and executing or while the [with] blocks were left. *)
Definition raises_Error (s : session) (m : string) : Prop :=
  s = Refused (Error m) \/ exists c, s = Served c (Some (Error m)).

Definition no_such_table : string := "1146 (42S02): Table 'd.missing' doesn't exist".





Fixpoint has_char (a : ascii) (s : string) : bool :=
  match s with
  | EmptyString => false
  | String c s' => Ascii.eqb c a || has_char a s'
  end.



(** A live server whose tables are [names], with a URL library that keeps
    every text as it is. *)
Definition tables_world (names : list string) : world :=
  {| environ := sample_environ;
     mysql := fun _ _ =>
       Served {| description := Some ["Tables_in_d"];
                 fetchall := inr (map (fun n => [PStr n]) names);
                 rowcount := Z.of_nat (length names);
                 commit := None |} None;
     any_url := Some |}.

(** The driver raised [e], either while connecting and executing or while
    the [with] blocks were left. *)
Definition session_raises (s : session) (e : exn) : Prop :=
  s = Refused e \/ exists c, s = Served c (Some e).

(** A server that cannot be reached: every attempt ends in an
    OperationalError with message [m]. *)
Definition unreachable_world (m : string) : world :=
  {| environ := sample_environ; mysql := fun _ _ => Refused (OperationalError m);
     any_url := Some |}.

Definition sample_config : db_config :=
  {| host := PStr "localhost"; port := 3306; user := PStr "u";
     password := PStr "p"; database := PStr "d"; charset := "utf8";
     connection_timeout := 5; get_warnings := true |}.

(** The connections one request opens. *)
Definition connections (w : world) (r : request) (st : ConnectionState)
    : list (db_config * pyval) :=
  match r with
  | ListResources => opened (list_resources w st)
  | ReadResource u => opened (read_resource w u st)
  | CallTool n a => opened (call_tool w n a st)
  end.



(** The port [connect] probes with: the converted argument when there is
    one, the port of the environment otherwise. *)
Definition port_argument (base : db_config) (arguments : gmap string pyval) : exn + Z :=
  match arguments !! "port" with
  | Some v => py_int v
  | None => inr (port base)
  end.

(** The configuration [connect] probes with: each of host, user, password
    and database comes from the arguments when the key is there and from
    the environment otherwise. *)
Definition effective_config (base : db_config) (arguments : gmap string pyval)
    (p : Z) : db_config :=
  {| host := default (host base) (arguments !! "host");
     port := p;
     user := default (user base) (arguments !! "user");
     password := default (password base) (arguments !! "password");
     database := default (database base) (arguments !! "database");
     charset := charset base;
     connection_timeout := connection_timeout base;
     get_warnings := get_warnings base |}.

(** "{host}:{port} as {user} (database: {database})" *)
Definition endpoint (h : pyval) (p : Z) (u d : pyval) : string :=
  py_str h +:+ ":" +:+ str_of_int p +:+ " as " +:+ py_str u
  +:+ " (database: " +:+ py_str d +:+ ")".





(** ** The text primitives on samples *)

Example int_plain : int_literal "3306" = Some 3306.
Proof. reflexivity. Qed.
Example int_spaces_sign : int_literal "  -1_000 " = Some (-1000).
Proof. reflexivity. Qed.
Example int_bad : int_literal "abc" = None /\ int_literal "1__0" = None /\ int_literal "" = None.
Proof. repeat split. Qed.
Example quote_ex : quote "my table/a%b~" = "my%20table/a%25b~".
Proof. reflexivity. Qed.
Example split_ex : split "/" "a/b//c" = ["a"; "b"; ""; "c"].
Proof. reflexivity. Qed.
Example upper_ex : upper (strip "  select * From t ") = "SELECT * FROM T".
Proof. reflexivity. Qed.

(** ** The sample server accepts a connection *)

Example connect_reaches_connected_state :
  state (call_tool live_world "connect" ∅ CONNECTION_STATE) = connected_state.
Proof. reflexivity. Qed.

(** ** Unfolding the monad *)

Ltac unfold_monad :=
  unfold mbind, M_bind, mret, M_ret, bind, ret, raise, lift, get_state, modify,
    set_is_connected, set_last_error, set_connection_details,
    try_except, leaving, with_cursor in *.

Ltac run_handler := unfold_monad; cbn in *.

(** ** disconnect *)

(** C5. From every prior state the [disconnect] tool returns (it raises
    nothing), its payload is the text "Disconnected from MySQL.", and the
    state it leaves has [is_connected] false and [last_error] null. *)
Theorem disconnect_always_succeeds (w : world) (arguments : gmap string pyval)
    (st : ConnectionState) :
  let o := call_tool w "disconnect" arguments st in
  value o = inr (text_content "Disconnected from MySQL.")
  /\ is_connected (state o) = false
  /\ last_error (state o) = None.
Proof. repeat split. Qed.

(** ** execute_sql before any connection *)

(** C4. When [is_connected] is false, [execute_sql] returns exactly the
    not-connected text, opens no database connection and leaves
    CONNECTION_STATE as it was, whatever its arguments are. *)
Theorem execute_sql_not_connected (w : world) (arguments : gmap string pyval)
    (st : ConnectionState) :
  is_connected st = false ->
  let o := call_tool w "execute_sql" arguments st in
  value o = inr (text_content
                   "Not connected to MySQL. Please use the 'connect' tool first.")
  /\ opened o = []
  /\ state o = st.
Proof.
  intros Hdis. cbn. unfold tool_execute_sql. run_handler.
  rewrite Hdis. cbn. repeat split.
Qed.

Lemma execute_sql_not_connected_witness :
  let o := call_tool live_world "execute_sql" {["query" := PStr "SELECT 1"]}
             CONNECTION_STATE in
  value o = inr (text_content
                   "Not connected to MySQL. Please use the 'connect' tool first.")
  /\ opened o = []
  /\ state o = CONNECTION_STATE.
Proof. apply (execute_sql_not_connected live_world _ CONNECTION_STATE). reflexivity. Defined.

(** C10. The connection check comes before the argument check: with a
    missing or empty [query], [execute_sql] returns the not-connected text
    when [is_connected] is false, and raises the ValueError
    "Query is required" exactly when [is_connected] is true. *)
Theorem execute_sql_checks_connection_first (w : world)
    (arguments : gmap string pyval) (st : ConnectionState) :
  no_query arguments ->
  value (call_tool w "execute_sql" arguments st) =
    if is_connected st
    then inl (ValueError "Query is required")
    else inr (text_content
                "Not connected to MySQL. Please use the 'connect' tool first.").
Proof.
  intros Hq. cbn. unfold tool_execute_sql. run_handler.
  destruct (is_connected st); cbn; [|reflexivity].
  destruct Hq as [-> | ->]; reflexivity.
Qed.

Lemma execute_sql_checks_connection_first_witness :
  value (call_tool live_world "execute_sql" ∅ CONNECTION_STATE) =
    inr (text_content "Not connected to MySQL. Please use the 'connect' tool first.")
  /\ value (call_tool live_world "execute_sql" {["query" := PStr ""]} connected_state) =
    inl (ValueError "Query is required").
Proof.
  split.
  - apply (execute_sql_checks_connection_first live_world ∅ CONNECTION_STATE).
    left. reflexivity.
  - apply (execute_sql_checks_connection_first live_world
             {["query" := PStr ""]} connected_state).
    right. reflexivity.
Defined.

(** ** Computations that leave the state alone and open no connection *)

Lemma pure_ret {A} (a : A) : pure_M (mret a).
Proof. exists (inr a). reflexivity. Qed.

Lemma pure_raise {A} (e : exn) : pure_M (@raise A e).
Proof. exists (inl e). reflexivity. Qed.

Lemma pure_lift {A} (r : exn + A) : pure_M (lift r).
Proof. destruct r; [apply pure_raise | apply pure_ret]. Qed.

Lemma pure_bind {A B} (m : M A) (f : A -> M B) :
  pure_M m -> (forall a, pure_M (f a)) -> pure_M (m ≫= f).
Proof.
  intros [r Hr] Hf. destruct r as [e | a].
  - exists (inl e). intros st. unfold mbind, M_bind, bind. rewrite Hr. reflexivity.
  - destruct (Hf a) as [r' Hr']. exists r'. intros st.
    unfold mbind, M_bind, bind. rewrite Hr. cbn. rewrite Hr'. reflexivity.
Qed.

Lemma pure_as_text (e : exn) (v : pyval) : pure_M (as_text e v).
Proof. destruct v; first [apply pure_raise | apply pure_ret]. Qed.

Lemma pure_columns_of (c : cursor) : pure_M (columns_of c).
Proof. unfold columns_of. destruct (description c); [apply pure_ret | apply pure_raise]. Qed.

Lemma pure_do_commit (c : cursor) : pure_M (do_commit c).
Proof. unfold do_commit. destruct (commit c); [apply pure_raise | apply pure_ret]. Qed.

Lemma pure_first_cell (row : list pyval) : pure_M (first_cell row).
Proof. destruct row; [apply pure_raise | apply pure_ret]. Qed.

Create HintDb pureM.
#[local] Hint Resolve pure_ret pure_raise pure_lift pure_as_text
  pure_columns_of pure_do_commit pure_first_cell : pureM.

Ltac pure_step :=
  first [ apply pure_bind; [ | intros ? ] | solve [ auto with pureM ] ].

Lemma pure_first_cells (tables : list (list pyval)) : pure_M (first_cells tables).
Proof.
  induction tables as [| [| v row] rest IH]; cbn; auto with pureM.
  apply pure_bind; [exact IH | intros; apply pure_ret].
Qed.

Lemma pure_all_text (l : list pyval) : pure_M (all_text l).
Proof.
  induction l as [| v rest IH]; cbn; auto with pureM.
  apply pure_bind; [apply pure_as_text | intros s].
  apply pure_bind; [exact IH | intros; apply pure_ret].
Qed.

Lemma pure_validate_uri (w : world) (text : string) : pure_M (validate_uri w text).
Proof.
  unfold validate_uri. destruct (any_url w text); [apply pure_ret | apply pure_raise].
Qed.

Lemma pure_resources_of (w : world) (tables : list (list pyval)) :
  pure_M (resources_of w tables).
Proof.
  induction tables as [| table rest IH]; cbn; auto with pureM.
  apply pure_bind; [apply pure_first_cell | intros v].
  apply pure_bind; [apply pure_lift | intros q].
  apply pure_bind; [apply pure_validate_uri | intros u].
  apply pure_bind; [exact IH | intros; apply pure_ret].
Qed.

#[local] Hint Resolve pure_first_cells pure_all_text pure_resources_of : pureM.

(** A [with] block whose body is pure opens exactly one connection, leaves
    the state alone, and yields the same result from every state. *)
Lemma with_cursor_pure {A} (w : world) (config : db_config) (stmt : pyval)
    (body : cursor -> M A) :
  (forall c, pure_M (body c)) ->
  exists r, forall st,
    with_cursor w config stmt body st =
      {| value := r; state := st; opened := [(config, stmt)] |}.
Proof.
  intros Hb. unfold with_cursor, leaving.
  destruct (mysql w config stmt) as [e | c closing].
  - exists (inl e). reflexivity.
  - destruct (Hb c) as [r Hr]. destruct closing as [e |].
    + exists (inl e). intros st. rewrite Hr. reflexivity.
    + exists r. intros st. rewrite Hr. reflexivity.
Qed.

(** The bodies of the three data operations. *)
Lemma pure_list_body (w : world) (c : cursor) :
  pure_M (tables ← lift (fetchall c); resources_of w tables).
Proof. apply pure_bind; [apply pure_lift | intros; apply pure_resources_of]. Qed.

Lemma pure_read_body (c : cursor) :
  pure_M (columns ← columns_of c; rows ← lift (fetchall c);
          mret (format_rows columns rows)).
Proof. repeat pure_step. Qed.

Lemma pure_execute_body (config : db_config) (query : pyval) (c : cursor) :
  pure_M (q ← as_text AttributeError query;
          if startswith (upper (strip q)) "SHOW TABLES" then
            tables ← lift (fetchall c);
            header ← as_text TypeError (database config);
            cells ← first_cells tables;
            result ← all_text cells;
            mret (text_content (join newline (("Tables_in_" +:+ header) :: result)))
          else if startswith (upper (strip q)) "SELECT" then
            columns ← columns_of c;
            rows ← lift (fetchall c);
            mret (text_content (format_rows columns rows))
          else
            do_commit c ;;
            mret (text_content ("Query executed successfully. Rows affected: "
                               +:+ str_of_int (rowcount c)))).
Proof.
  apply pure_bind; [apply pure_as_text | intros q].
  destruct (startswith (upper (strip q)) "SHOW TABLES"); [repeat pure_step|].
  destruct (startswith (upper (strip q)) "SELECT"); repeat pure_step.
Qed.

#[local] Hint Resolve pure_list_body pure_read_body pure_execute_body : pureM.

(** ** Equations of the monad *)

Lemma bind_get_state {A} (f : ConnectionState -> M A) (st : ConnectionState) :
  (get_state ≫= f) st = f st st.
Proof. reflexivity. Qed.

Lemma bind_ret {A B} (a : A) (f : A -> M B) (st : ConnectionState) :
  (lift (inr a) ≫= f) st = f a st.
Proof. reflexivity. Qed.

Lemma bind_raise {A B} (e : exn) (f : A -> M B) (st : ConnectionState) :
  (lift (inl e) ≫= f) st = raise e st.
Proof. reflexivity. Qed.

(** [try] around a [with] block whose body is pure: the block opens one
    connection; a handler, when one matches, starts from the state the
    request found. *)
Lemma try_with_cursor {A} (w : world) (config : db_config) (stmt : pyval)
    (body : cursor -> M A) (h : exn -> option (M A)) (st : ConnectionState) :
  (forall c, pure_M (body c)) ->
  let r := with_cursor w config stmt body st in
  let o := try_except (with_cursor w config stmt body) h st in
  match value r with
  | inr a => value o = inr a /\ state o = st /\ opened o = [(config, stmt)]
  | inl e =>
      match h e with
      | None => value o = inl e /\ state o = st /\ opened o = [(config, stmt)]
      | Some k => value o = value (k st) /\ state o = state (k st)
                  /\ opened o = (config, stmt) :: opened (k st)
      end
  end.
Proof.
  intros Hb. destruct (with_cursor_pure w config stmt body Hb) as [r Hr].
  cbv zeta. unfold try_except. rewrite Hr. cbn.
  destruct r as [e | a]; [destruct (h e) as [k |]|]; cbn; auto.
Qed.

(** The result of such a block is the same from every state. *)
Lemma with_cursor_value {A} (w : world) (config : db_config) (stmt : pyval)
    (body : cursor -> M A) (st st' : ConnectionState) :
  (forall c, pure_M (body c)) ->
  value (with_cursor w config stmt body st) = value (with_cursor w config stmt body st').
Proof.
  intros Hb. destruct (with_cursor_pure w config stmt body Hb) as [r Hr].
  rewrite !Hr. reflexivity.
Qed.

Ltac use_try_with_cursor H :=
  match goal with
  | |- context [try_except (with_cursor ?w ?c ?s ?b) ?h ?st] =>
      pose proof (try_with_cursor w c s b h st
                    ltac:(intros; cbv beta; auto with pureM)) as H;
      cbv zeta in H
  end.

Lemma list_resources_state (w : world) (st : ConnectionState) :
  state (list_resources w st) = st
  \/ exists m, state (list_resources w st) = lost m st.
Proof.
  unfold list_resources. rewrite bind_get_state.
  destruct (is_connected st); cbn [negb]; [|left; reflexivity].
  destruct (get_db_config (environ w)) as [e | config]; [left; reflexivity|].
  rewrite bind_ret. use_try_with_cursor H.
  destruct (value (with_cursor _ _ _ _ _)) as [e | a].
  - destruct e; destruct H as (_ & -> & _); eauto.
  - destruct H as (_ & -> & _); eauto.
Qed.

Lemma read_resource_state (w : world) (uri_str : string) (st : ConnectionState) :
  state (read_resource w uri_str st) = st
  \/ exists m, state (read_resource w uri_str st) = lost m st.
Proof.
  unfold read_resource. rewrite bind_get_state.
  destruct (is_connected st); cbn [negb]; [|left; reflexivity].
  destruct (get_db_config (environ w)) as [e | config]; [left; reflexivity|].
  rewrite bind_ret.
  destruct (startswith uri_str "mysql://"); cbn [negb]; [|left; reflexivity].
  use_try_with_cursor H.
  destruct (value (with_cursor _ _ _ _ _)) as [e | a].
  - destruct e; destruct H as (_ & -> & _); eauto.
  - destruct H as (_ & -> & _); eauto.
Qed.

(** The loader raises nothing but ValueError. *)
Lemma get_db_config_raises (environ : gmap string string) (e : exn) :
  get_db_config environ = inl e -> is_ValueError e = true.
Proof.
  unfold get_db_config, int_of_str.
  destruct (int_literal (getenv_or environ "MYSQL_PORT" "3306")); [|intros [= <-]; reflexivity].
  destruct (int_literal (getenv_or environ "MYSQL_CONNECTION_TIMEOUT" "5"));
    [|intros [= <-]; reflexivity].
  destruct (negb _); intros [= <-]. reflexivity.
Qed.

(** [int(v)] raises TypeError or ValueError, never a driver error. *)
Lemma py_int_raises (v : pyval) (e : exn) :
  py_int v = inl e -> e = TypeError \/ is_ValueError e = true.
Proof.
  destruct v; cbn; try discriminate.
  - intros [= <-]. left; reflexivity.
  - unfold int_of_str. destruct (int_literal s); intros [= <-]. right; reflexivity.
Qed.

Lemma try_bind_ret {A B} (a : A) (f : A -> M B) (h : exn -> option (M B))
    (st : ConnectionState) :
  try_except (lift (inr a) ≫= f) h st = try_except (f a) h st.
Proof. reflexivity. Qed.

Lemma try_bind_raise_unhandled {A B} (e : exn) (f : A -> M B)
    (h : exn -> option (M B)) (st : ConnectionState) :
  h e = None -> try_except (lift (inl e) ≫= f) h st = raise e st.
Proof. intros Hh. unfold try_except. rewrite bind_raise. cbn. rewrite Hh. reflexivity. Qed.

Lemma tool_execute_sql_state (w : world) (arguments : gmap string pyval)
    (st : ConnectionState) :
  state (tool_execute_sql w arguments st) = st
  \/ exists m, state (tool_execute_sql w arguments st) = lost m st.
Proof.
  unfold tool_execute_sql. rewrite bind_get_state.
  destruct (is_connected st); cbn [negb]; [|left; reflexivity].
  destruct (truthy _); cbn [negb]; [|left; reflexivity].
  destruct (get_db_config (environ w)) as [e | config] eqn:Hg.
  - left. apply get_db_config_raises in Hg.
    rewrite try_bind_raise_unhandled; [reflexivity|].
    destruct e; try discriminate; reflexivity.
  - rewrite try_bind_ret. use_try_with_cursor H.
    destruct (value (with_cursor _ _ _ _ _)) as [e | a].
    + destruct e; destruct H as (_ & -> & _); eauto.
    + destruct H as (_ & -> & _); eauto.
Qed.

(** The four ways [connect] can leave the state: untouched (an exception
    other than the driver's escaped before the probe), lost (the driver
    refused), established, or established and then lost again because
    leaving the [with] blocks raised a driver error. *)
Lemma tool_connect_state (w : world) (arguments : gmap string pyval)
    (st : ConnectionState) :
  let st' := state (tool_connect w arguments st) in
  st' = st
  \/ (exists m, st' = lost m st)
  \/ (exists d, st' = established d)
  \/ (exists m d, st' = lost m (established d)).
Proof.
  cbv zeta. unfold tool_connect.
  destruct (get_db_config (environ w)) as [e | config] eqn:Hg.
  { left. apply get_db_config_raises in Hg.
    rewrite try_bind_raise_unhandled; [reflexivity|].
    destruct e; try discriminate; reflexivity. }
  rewrite try_bind_ret. cbv zeta. unfold override_port.
  destruct (arguments !! "port") as [v |].
  - destruct (py_int v) as [e | p] eqn:Hp.
    { left. apply py_int_raises in Hp.
      unfold try_except. unfold mbind at 1 2, M_bind, bind. rewrite bind_raise. cbn.
      destruct Hp as [-> | Hp]; [reflexivity|].
      destruct e; try discriminate; reflexivity. }
    run_handler.
    destruct (mysql w _ _) as [e | c [e |]]; cbn.
    + destruct e; cbn; eauto.
    + destruct e; cbn; eauto 6.
    + eauto.
  - run_handler.
    destruct (mysql w _ _) as [e | c [e |]]; cbn.
    + destruct e; cbn; eauto.
    + destruct e; cbn; eauto 6.
    + eauto.
Qed.

(** ** The state invariant *)

Lemma consistent_initial : consistent CONNECTION_STATE.
Proof. intros H. discriminate H. Qed.

Lemma consistent_lost (m : string) (st : ConnectionState) : consistent (lost m st).
Proof. intros H. discriminate H. Qed.

Lemma consistent_established (d : details) : consistent (established d).
Proof. intros _. split; [discriminate | reflexivity]. Qed.

Lemma call_tool_consistent (w : world) (n : string) (arguments : gmap string pyval)
    (st : ConnectionState) :
  consistent st -> consistent (state (call_tool w n arguments st)).
Proof.
  intros Hst. unfold call_tool.
  destruct (String.eqb n "connect").
  { destruct (tool_connect_state w arguments st)
      as [-> | [[m ->] | [[d ->] | (m & d & ->)]]];
      auto using consistent_lost, consistent_established. }
  destruct (String.eqb n "disconnect").
  { intros H. discriminate H. }
  destruct (String.eqb n "connection_status").
  { unfold tool_connection_status. rewrite bind_get_state.
    destruct (is_connected st); [destruct (connection_details st)|]; exact Hst. }
  destruct (String.eqb n "execute_sql").
  { destruct (tool_execute_sql_state w arguments st) as [-> | [m ->]];
      auto using consistent_lost. }
  exact Hst.
Qed.

Lemma step_consistent (w : world) (r : request) (st : ConnectionState) :
  consistent st -> consistent (step w r st).
Proof.
  intros Hst. destruct r as [| u | n a]; cbn [step].
  - destruct (list_resources_state w st) as [-> | [m ->]]; auto using consistent_lost.
  - destruct (read_resource_state w u st) as [-> | [m ->]]; auto using consistent_lost.
  - apply call_tool_consistent, Hst.
Qed.

Lemma run_consistent (trace : list (world * request)) (st : ConnectionState) :
  consistent st -> consistent (run trace st).
Proof.
  revert st. induction trace as [| [w r] rest IH]; intros st Hst; cbn [run].
  - exact Hst.
  - apply IH, step_consistent, Hst.
Qed.

(** Every prefix of a run is a run, so the invariant is met after each
    request and not only after the last. *)
Lemma run_app (t1 t2 : list (world * request)) (st : ConnectionState) :
  run (t1 ++ t2) st = run t2 (run t1 st).
Proof.
  revert st. induction t1 as [| [w r] rest IH]; intros st; cbn; [reflexivity | apply IH].
Qed.

(** C1, as the spec states it, fails: [disconnect] lowers the flag and
    clears the error but keeps [connection_details], so after a successful
    [connect] followed by [disconnect] the details are non-null although
    [is_connected] is false. *)
Lemma details_survive_disconnect :
  let st := run [(live_world, CallTool "connect" ∅);
                 (live_world, CallTool "disconnect" ∅)] CONNECTION_STATE in
  ~ (connection_details st <> None <-> is_connected st = true).
Proof.
  cbv zeta. intros [Hto _].
  assert (H : is_connected
                (run [(live_world, CallTool "connect" ∅);
                      (live_world, CallTool "disconnect" ∅)] CONNECTION_STATE)
              = false) by reflexivity.
  rewrite Hto in H; [discriminate H|].
  vm_compute. discriminate.
Qed.

(** C1, amended. After every request of every sequence dispatched from the
    initial state (list_resources, read_resource, connect, disconnect,
    connection_status, execute_sql, in any world), if [is_connected] is
    true then [connection_details] is non-null and [last_error] is null. *)
Theorem connected_implies_details_and_no_error
    (trace : list (world * request)) :
  let st := run trace CONNECTION_STATE in
  is_connected st = true ->
  connection_details st <> None /\ last_error st = None.
Proof. apply (run_consistent trace CONNECTION_STATE), consistent_initial. Qed.

Lemma connected_implies_details_and_no_error_witness :
  let st := run [(live_world, CallTool "connect" ∅)] CONNECTION_STATE in
  is_connected st = true
  /\ connection_details st <> None /\ last_error st = None.
Proof.
  cbv zeta. split; [reflexivity|].
  apply (connected_implies_details_and_no_error [(live_world, CallTool "connect" ∅)]).
  reflexivity.
Defined.

(** ** connection_status *)

(** C9. [connection_status] never mutates the state: from every prior
    state each field is what it was and no connection is opened; and in
    every state the server can reach it returns its text (it raises
    nothing). *)
Theorem connection_status_read_only (w : world) (arguments : gmap string pyval) :
  (forall st : ConnectionState,
     let st' := state (call_tool w "connection_status" arguments st) in
     is_connected st' = is_connected st
     /\ last_error st' = last_error st
     /\ connection_details st' = connection_details st
     /\ opened (call_tool w "connection_status" arguments st) = [])
  /\ (forall trace : list (world * request),
        exists t : string,
          value (call_tool w "connection_status" arguments (run trace CONNECTION_STATE))
          = inr (text_content t)).
Proof.
  split.
  - intros st. cbn. unfold tool_connection_status. rewrite bind_get_state.
    destruct (is_connected st) eqn:Hc; [destruct (connection_details st) eqn:Hd|];
      cbn; rewrite ?Hc, ?Hd; repeat split.
  - intros trace.
    pose proof (run_consistent trace CONNECTION_STATE consistent_initial) as Hinv.
    set (st := run trace CONNECTION_STATE) in *.
    cbn. unfold tool_connection_status. rewrite bind_get_state.
    destruct (is_connected st) eqn:Hc.
    + destruct (Hinv Hc) as [Hd _].
      destruct (connection_details st) as [d |]; [|congruence].
      eexists. reflexivity.
    + eexists. reflexivity.
Qed.

(** ** execute_sql on a live connection *)

(** The handlers of [execute_sql] answer with text. *)
Lemma execute_sql_from_connected (w : world) (arguments : gmap string pyval)
    (st st' : ConnectionState) :
  is_connected st = true -> is_connected st' = true ->
  value (tool_execute_sql w arguments st') = value (tool_execute_sql w arguments st)
  /\ opened (tool_execute_sql w arguments st') = opened (tool_execute_sql w arguments st).
Proof.
  intros Hc Hc'. unfold tool_execute_sql. rewrite !bind_get_state, Hc, Hc'. cbn [negb].
  destruct (truthy _); cbn [negb]; [|split; reflexivity].
  destruct (get_db_config (environ w)) as [e | config] eqn:Hg.
  - apply get_db_config_raises in Hg.
    rewrite !try_bind_raise_unhandled; try (split; reflexivity);
      destruct e; try discriminate; reflexivity.
  - rewrite !try_bind_ret.
    match goal with
    | |- context [try_except (with_cursor ?w ?c ?s ?b) ?h st] =>
        pose proof (try_with_cursor w c s b h st
                      ltac:(intros; cbv beta; auto with pureM)) as H;
        pose proof (try_with_cursor w c s b h st'
                      ltac:(intros; cbv beta; auto with pureM)) as H';
        pose proof (with_cursor_value w c s b st st'
                      ltac:(intros; cbv beta; auto with pureM)) as Hv
    end.
    cbv zeta in H, H'. rewrite <- Hv in H'.
    destruct (value (with_cursor _ _ _ _ st)) as [e | a].
    + destruct e;
        destruct H as (-> & _ & ->); destruct H' as (-> & _ & ->); split; reflexivity.
    + destruct H as (-> & _ & ->); destruct H' as (-> & _ & ->); split; reflexivity.
Qed.

Lemma execute_sql_opened (w : world) (arguments : gmap string pyval)
    (st : ConnectionState) (query : pyval) :
  is_connected st = true ->
  arguments !! "query" = Some query -> truthy query = true ->
  opened (tool_execute_sql w arguments st) =
    match get_db_config (environ w) with
    | inr config => [(config, query)]
    | inl _ => []
    end.
Proof.
  intros Hc Hq Ht. unfold tool_execute_sql. rewrite bind_get_state, Hc, Hq. cbn [negb].
  change (default PNone (Some query)) with query. rewrite Ht. cbn [negb].
  destruct (get_db_config (environ w)) as [e | config] eqn:Hg.
  - apply get_db_config_raises in Hg.
    rewrite try_bind_raise_unhandled; [reflexivity|].
    destruct e; try discriminate; reflexivity.
  - rewrite try_bind_ret. use_try_with_cursor H.
    destruct (value (with_cursor _ _ _ _ _)) as [e | a].
    + destruct e; destruct H as (_ & _ & ->); reflexivity.
    + destruct H as (_ & _ & ->); reflexivity.
Qed.

(** C3. While connected, [execute_sql] opens its connection with the
    configuration that [get_db_config] derives from the environment, and
    with nothing else: what is stored in CONNECTION_STATE (where a prior
    [connect] left its overridden host, port, user and database) changes
    neither the connection opened nor the result. *)
Theorem execute_sql_uses_environment_config (w : world)
    (arguments : gmap string pyval) (st : ConnectionState) (query : pyval) :
  is_connected st = true ->
  arguments !! "query" = Some query ->
  truthy query = true ->
  let o := call_tool w "execute_sql" arguments st in
  opened o = match get_db_config (environ w) with
             | inr config => [(config, query)]
             | inl _ => []
             end
  /\ (forall st' : ConnectionState,
        is_connected st' = true ->
        value (call_tool w "execute_sql" arguments st') = value o
        /\ opened (call_tool w "execute_sql" arguments st') = opened o).
Proof.
  intros Hc Hq Ht. cbn. split.
  - apply execute_sql_opened; assumption.
  - intros st' Hc'. apply execute_sql_from_connected; assumption.
Qed.

Lemma execute_sql_uses_environment_config_witness :
  connection_details overridden_state =
    Some {| details_host := PStr "db.internal"; details_port := 3307;
            details_user := PStr "u"; details_database := PStr "d" |}
  /\ opened (call_tool live_world "execute_sql" {["query" := PStr "SELECT 1"]}
               overridden_state) =
     [({| host := PStr "localhost"; port := 3306; user := PStr "u";
          password := PStr "p"; database := PStr "d"; charset := "utf8";
          connection_timeout := 5; get_warnings := true |}, PStr "SELECT 1")].
Proof.
  split; [reflexivity|].
  apply (execute_sql_uses_environment_config live_world
           {["query" := PStr "SELECT 1"]} overridden_state (PStr "SELECT 1"));
    reflexivity.
Defined.

Lemma startswith_empty (s : string) : startswith s EmptyString = true.
Proof. destruct s; reflexivity. Qed.

Lemma startswith_nil (a : ascii) (p : string) :
  startswith EmptyString (String a p) = false.
Proof. reflexivity. Qed.

Lemma startswith_cons (a b : ascii) (s p : string) :
  startswith (String b s) (String a p) =
    if Ascii.eqb a b then startswith s p else false.
Proof.
  unfold startswith. cbn [String.prefix].
  destruct (ascii_dec a b) as [Heq | Hne]; destruct (Ascii.eqb_spec a b); congruence.
Qed.

(** A statement that starts with SELECT does not start with SHOW TABLES,
    so the first test of [execute_sql] lets it through to the second. *)
Lemma select_not_show (s : string) :
  startswith s "SELECT" = true -> startswith s "SHOW TABLES" = false.
Proof.
  destruct s as [| a [| b s]]; rewrite ?startswith_nil, ?startswith_cons;
    try discriminate; destruct (Ascii.eqb "S" a); try discriminate; try reflexivity.
  rewrite ?startswith_nil, ?startswith_cons.
  destruct (Ascii.eqb_spec "E" b) as [<- |]; [|discriminate].
  reflexivity.
Qed.

Lemma select_is_truthy (q : string) :
  startswith (upper (strip q)) "SELECT" = true -> truthy (PStr q) = true.
Proof. destruct q; [intros H; vm_compute in H; discriminate H | reflexivity]. Qed.

(** C6, as the spec states it, fails.  "SELECT 1 INTO @x" starts with
    SELECT and the server executes it while connected, but it yields no
    result set: the cursor has no description, building the header line
    raises a TypeError, and the call returns no text at all. *)
Lemma select_into_has_no_text :
  is_connected connected_state = true
  /\ startswith (upper (strip "SELECT 1 INTO @x")) "SELECT" = true
  /\ mysql no_result_world sample_config (PStr "SELECT 1 INTO @x")
     = Served no_result_cursor None
  /\ call_tool no_result_world "execute_sql"
       {["query" := PStr "SELECT 1 INTO @x"]} connected_state
     = {| value := inl TypeError; state := connected_state;
          opened := [(sample_config, PStr "SELECT 1 INTO @x")] |}.
Proof. repeat split. Qed.



(** A cell that holds a comma goes out as it is. *)
Example comma_is_not_escaped :
  format_rows ["a"; "b"] [[PStr "x,y"; PNone]] = "a,b" +:+ newline +:+ "x,y,None".
Proof. reflexivity. Qed.

(** ** Statement-level failures *)

Lemma with_cursor_raises {A} (w : world) (config : db_config) (stmt : pyval)
    (body : cursor -> M A) (st : ConnectionState) (m : string) :
  raises_Error (mysql w config stmt) m ->
  value (with_cursor w config stmt body st) = inl (Error m).
Proof.
  intros [Hs | [c Hs]]; unfold with_cursor, leaving; rewrite Hs; reflexivity.
Qed.

(** C7. On a connection that is up, when the driver fails the statement
    of [execute_sql] or of [read_resource] with an [Error] that is not an
    OperationalError, the call returns a plain text carrying the driver's
    message (no exception leaves the handler) and CONNECTION_STATE is what
    it was, [is_connected] included. *)
Theorem statement_failure_is_atomic (w : world) (st : ConnectionState)
    (config : db_config) (m : string) :
  is_connected st = true ->
  get_db_config (environ w) = inr config ->
  (forall (arguments : gmap string pyval) (query : pyval),
     arguments !! "query" = Some query ->
     truthy query = true ->
     raises_Error (mysql w config query) m ->
     let o := call_tool w "execute_sql" arguments st in
     value o = inr (text_content ("Error executing query: " +:+ m))
     /\ state o = st)
  /\ (forall uri_str : string,
        startswith uri_str "mysql://" = true ->
        raises_Error
          (mysql w config
             (PStr ("SELECT * FROM " +:+ table_of_uri uri_str +:+ " LIMIT 100"))) m ->
        let o := read_resource w uri_str st in
        value o = inr ("Error: " +:+ m)
        /\ state o = st).
Proof.
  intros Hc Hg. split.
  - intros arguments query Hq Ht Hr. cbn. unfold tool_execute_sql.
    rewrite bind_get_state, Hc, Hq. cbn [negb].
    change (default PNone (Some query)) with query. rewrite Ht. cbn [negb].
    rewrite Hg, try_bind_ret. use_try_with_cursor H.
    rewrite (with_cursor_raises _ _ _ _ _ m Hr) in H.
    destruct H as (-> & -> & _). split; reflexivity.
  - intros uri_str Hu Hr. cbv zeta. unfold read_resource.
    rewrite bind_get_state, Hc. cbn [negb]. rewrite Hg, bind_ret, Hu. cbn [negb].
    use_try_with_cursor H.
    rewrite (with_cursor_raises _ _ _ _ _ m Hr) in H.
    destruct H as (-> & -> & _). split; reflexivity.
Qed.

Lemma statement_failure_is_atomic_witness :
  (let o := call_tool (rejecting_world no_such_table) "execute_sql"
              {["query" := PStr "SELECT * FROM missing"]} connected_state in
   value o = inr (text_content ("Error executing query: " +:+ no_such_table))
   /\ state o = connected_state)
  /\ (let o := read_resource (rejecting_world no_such_table)
                 "mysql://missing/data" connected_state in
      value o = inr ("Error: " +:+ no_such_table)
      /\ state o = connected_state).
Proof.
  destruct (statement_failure_is_atomic (rejecting_world no_such_table)
              connected_state
              {| host := PStr "localhost"; port := 3306; user := PStr "u";
                 password := PStr "p"; database := PStr "d"; charset := "utf8";
                 connection_timeout := 5; get_warnings := true |}
              no_such_table eq_refl eq_refl) as [Hexec Hread].
  split.
  - apply (Hexec {["query" := PStr "SELECT * FROM missing"]}
             (PStr "SELECT * FROM missing")); [reflexivity | reflexivity |].
    left. reflexivity.
  - apply (Hread "mysql://missing/data"); [reflexivity |].
    left. reflexivity.
Defined.

(** ** The configuration loader *)







(** ** Resource URIs: listing and reading back *)

Lemma hd_split_cons (sep c : ascii) (s : string) :
  hd EmptyString (split sep (String c s)) =
    if Ascii.eqb c sep then EmptyString else String c (hd EmptyString (split sep s)).
Proof.
  cbn [split]. destruct (Ascii.eqb c sep); [reflexivity|].
  destruct (split sep s); reflexivity.
Qed.

Lemma hd_split_app (sep : ascii) (a b : string) :
  hd EmptyString (split sep (a +:+ String sep b)) = hd EmptyString (split sep a).
Proof.
  induction a as [| c a IH].
  - change (EmptyString +:+ String sep b) with (String sep b).
    rewrite hd_split_cons, Ascii.eqb_refl. reflexivity.
  - change (String c a +:+ String sep b) with (String c (a +:+ String sep b)).
    rewrite !hd_split_cons, IH. reflexivity.
Qed.














Lemma read_resource_opened (w : world) (st : ConnectionState) (config : db_config)
    (uri_str : string) :
  is_connected st = true ->
  get_db_config (environ w) = inr config ->
  startswith uri_str "mysql://" = true ->
  opened (read_resource w uri_str st) =
    [(config, PStr ("SELECT * FROM " +:+ table_of_uri uri_str +:+ " LIMIT 100"))].
Proof.
  intros Hc Hg Hu. unfold read_resource.
  rewrite bind_get_state, Hc. cbn [negb]. rewrite Hg, bind_ret, Hu. cbn [negb].
  use_try_with_cursor H.
  destruct (value (with_cursor _ _ _ _ _)) as [e | a].
  - destruct e; destruct H as (_ & _ & ->); reflexivity.
  - destruct H as (_ & _ & ->); reflexivity.
Qed.




(** * Further properties of the handlers *)

(** ** The resource catalog *)

Lemma with_cursor_session_raises {A} (w : world) (config : db_config) (stmt : pyval)
    (body : cursor -> M A) (st : ConnectionState) (e : exn) :
  session_raises (mysql w config stmt) e ->
  value (with_cursor w config stmt body st) = inl e.
Proof.
  intros [Hs | [c Hs]]; unfold with_cursor, leaving; rewrite Hs; reflexivity.
Qed.

(** X1. Before any connection neither catalog operation goes to the
    database: [list_resources] returns the empty list and [read_resource]
    returns its error text, for every URI, even one with a foreign scheme;
    the state is left as it was. *)
Theorem catalog_not_connected (w : world) (st : ConnectionState) (uri_str : string) :
  is_connected st = false ->
  list_resources w st = {| value := inr []; state := st; opened := [] |}
  /\ read_resource w uri_str st =
       {| value := inr "Error: Not connected to MySQL. Please use the 'connect' tool first.";
          state := st; opened := [] |}.
Proof.
  intros Hc. unfold list_resources, read_resource.
  rewrite !bind_get_state, Hc. split; reflexivity.
Qed.

Lemma catalog_not_connected_witness :
  list_resources live_world CONNECTION_STATE =
    {| value := inr []; state := CONNECTION_STATE; opened := [] |}
  /\ read_resource live_world "http://t/data" CONNECTION_STATE =
       {| value := inr "Error: Not connected to MySQL. Please use the 'connect' tool first.";
          state := CONNECTION_STATE; opened := [] |}.
Proof. apply (catalog_not_connected live_world CONNECTION_STATE "http://t/data"). reflexivity. Defined.

(** X2. When the driver answers a catalog operation with an
    OperationalError, the flag goes down, the message is recorded and the
    stored details stay; [list_resources] still returns the empty list and
    [read_resource] returns a text that says the connection is lost. *)
Theorem catalog_connection_lost (w : world) (st : ConnectionState)
    (config : db_config) (m : string) :
  is_connected st = true ->
  get_db_config (environ w) = inr config ->
  (session_raises (mysql w config (PStr "SHOW TABLES")) (OperationalError m) ->
   value (list_resources w st) = inr []
   /\ state (list_resources w st) = lost m st)
  /\ (forall uri_str : string,
        startswith uri_str "mysql://" = true ->
        session_raises
          (mysql w config
             (PStr ("SELECT * FROM " +:+ table_of_uri uri_str +:+ " LIMIT 100")))
          (OperationalError m) ->
        value (read_resource w uri_str st) = inr ("Error: Connection to MySQL lost. " +:+ m)
        /\ state (read_resource w uri_str st) = lost m st).
Proof.
  intros Hc Hg. split.
  - intros Hr. unfold list_resources.
    rewrite bind_get_state, Hc. cbn [negb]. rewrite Hg, bind_ret.
    use_try_with_cursor H.
    rewrite (with_cursor_session_raises _ _ _ _ _ _ Hr) in H.
    destruct H as (-> & -> & _). split; reflexivity.
  - intros uri_str Hu Hr. unfold read_resource.
    rewrite bind_get_state, Hc. cbn [negb]. rewrite Hg, bind_ret, Hu. cbn [negb].
    use_try_with_cursor H.
    rewrite (with_cursor_session_raises _ _ _ _ _ _ Hr) in H.
    destruct H as (-> & -> & _). split; reflexivity.
Qed.

Lemma catalog_connection_lost_witness :
  (value (list_resources (unreachable_world "gone") connected_state) = inr []
   /\ state (list_resources (unreachable_world "gone") connected_state)
      = lost "gone" connected_state)
  /\ (value (read_resource (unreachable_world "gone") "mysql://t/data" connected_state)
        = inr "Error: Connection to MySQL lost. gone"
      /\ state (read_resource (unreachable_world "gone") "mysql://t/data" connected_state)
         = lost "gone" connected_state).
Proof.
  destruct (catalog_connection_lost (unreachable_world "gone") connected_state
              sample_config "gone" eq_refl eq_refl) as [Hl Hr].
  split.
  - apply Hl. left. reflexivity.
  - apply (Hr "mysql://t/data"); [reflexivity | left; reflexivity].
Defined.

(** X3. A driver error that is not an OperationalError is swallowed by
    [list_resources]: the caller gets the empty list, as if there were no
    tables, and the state is untouched. *)
Theorem list_resources_hides_errors (w : world) (st : ConnectionState)
    (config : db_config) (m : string) :
  is_connected st = true ->
  get_db_config (environ w) = inr config ->
  session_raises (mysql w config (PStr "SHOW TABLES")) (Error m) ->
  value (list_resources w st) = inr [] /\ state (list_resources w st) = st.
Proof.
  intros Hc Hg Hr. unfold list_resources.
  rewrite bind_get_state, Hc. cbn [negb]. rewrite Hg, bind_ret.
  use_try_with_cursor H.
  rewrite (with_cursor_session_raises _ _ _ _ _ _ Hr) in H.
  destruct H as (-> & -> & _). split; reflexivity.
Qed.

Lemma list_resources_hides_errors_witness :
  value (list_resources (rejecting_world "denied") connected_state) = inr []
  /\ state (list_resources (rejecting_world "denied") connected_state) = connected_state.
Proof.
  apply (list_resources_hides_errors (rejecting_world "denied") connected_state
           sample_config "denied"); [reflexivity | reflexivity | left; reflexivity].
Defined.

(** X4. On a connection that is up, a URI that does not start with
    "mysql://" makes [read_resource] raise the ValueError
    "Invalid URI scheme: <uri>" before any connection is opened; the state
    is untouched. *)
Theorem read_resource_invalid_scheme (w : world) (st : ConnectionState)
    (config : db_config) (uri_str : string) :
  is_connected st = true ->
  get_db_config (environ w) = inr config ->
  startswith uri_str "mysql://" = false ->
  read_resource w uri_str st =
    {| value := inl (ValueError ("Invalid URI scheme: " +:+ uri_str));
       state := st; opened := [] |}.
Proof.
  intros Hc Hg Hu. unfold read_resource.
  rewrite bind_get_state, Hc. cbn [negb]. rewrite Hg, bind_ret, Hu. reflexivity.
Qed.

Lemma read_resource_invalid_scheme_witness :
  read_resource live_world "MySQL://t/data" connected_state =
    {| value := inl (ValueError "Invalid URI scheme: MySQL://t/data");
       state := connected_state; opened := [] |}.
Proof.
  apply (read_resource_invalid_scheme live_world connected_state sample_config
           "MySQL://t/data"); reflexivity.
Defined.

Lemma mysql_scheme (x : string) : startswith ("mysql://" +:+ x) "mysql://" = true.
Proof.
  change ("mysql://" +:+ x)
    with (String "m" (String "y" (String "s" (String "q" (String "l"
           (String ":" (String "/" (String "/" x)))))))).
  rewrite !startswith_cons. cbn. apply startswith_empty.
Qed.

Lemma hd_split_no_sep (sep : ascii) (t : string) :
  has_char sep t = false -> hd EmptyString (split sep t) = t.
Proof.
  induction t as [| c t IH]; [reflexivity|]. cbn [has_char].
  intros [Hc Ht]%orb_false_elim. rewrite hd_split_cons, Hc, IH by exact Ht. reflexivity.
Qed.

(** What [read_resource] takes for the table: the text between the scheme
    and the first slash, or all that follows the scheme when there is no
    slash. *)
Lemma table_of_uri_segment (t rest : string) :
  has_char "/" t = false ->
  table_of_uri ("mysql://" +:+ t +:+ String "/" rest) = t
  /\ table_of_uri ("mysql://" +:+ t) = t.
Proof.
  intros Ht. unfold table_of_uri. split.
  - change (drop_chars 8 ("mysql://" +:+ t +:+ String "/" rest))
      with (t +:+ String "/" rest).
    rewrite hd_split_app. apply hd_split_no_sep, Ht.
  - change (drop_chars 8 ("mysql://" +:+ t)) with t. apply hd_split_no_sep, Ht.
Qed.

(** X5. On a connection that is up, [read_resource] puts the first path
    segment of the URI, whatever characters it holds, between
    "SELECT * FROM " and " LIMIT 100" and sends that one statement with the
    configuration of the environment; what follows the segment in the URI
    plays no part. *)
Theorem read_resource_queries_segment (w : world) (st : ConnectionState)
    (config : db_config) (t rest : string) :
  is_connected st = true ->
  get_db_config (environ w) = inr config ->
  has_char "/" t = false ->
  opened (read_resource w ("mysql://" +:+ t +:+ String "/" rest) st) =
    [(config, PStr ("SELECT * FROM " +:+ t +:+ " LIMIT 100"))]
  /\ opened (read_resource w ("mysql://" +:+ t) st) =
    [(config, PStr ("SELECT * FROM " +:+ t +:+ " LIMIT 100"))].
Proof.
  intros Hc Hg Ht. destruct (table_of_uri_segment t rest Ht) as [H1 H2]. split.
  - rewrite (read_resource_opened w st config _ Hc Hg (mysql_scheme _)), H1. reflexivity.
  - rewrite (read_resource_opened w st config _ Hc Hg (mysql_scheme _)), H2. reflexivity.
Qed.

Lemma read_resource_queries_segment_witness :
  opened (read_resource live_world "mysql://t; DROP TABLE u/data" connected_state) =
    [(sample_config, PStr "SELECT * FROM t; DROP TABLE u LIMIT 100")]
  /\ opened (read_resource live_world "mysql://t; DROP TABLE u" connected_state) =
    [(sample_config, PStr "SELECT * FROM t; DROP TABLE u LIMIT 100")].
Proof.
  apply (read_resource_queries_segment live_world connected_state sample_config
           "t; DROP TABLE u" "data"); reflexivity.
Defined.

(** X6. When the driver serves the statement of [read_resource], the body
    returned is the comma-joined column names followed by one line per row
    with the comma-joined [str] of its cells, and the state is untouched;
    with no rows the body is the header line alone. *)
Theorem read_resource_format (w : world) (st : ConnectionState)
    (config : db_config) (uri_str : string) (c : cursor)
    (columns : list string) (rows : list (list pyval)) :
  is_connected st = true ->
  get_db_config (environ w) = inr config ->
  startswith uri_str "mysql://" = true ->
  mysql w config (PStr ("SELECT * FROM " +:+ table_of_uri uri_str +:+ " LIMIT 100"))
    = Served c None ->
  description c = Some columns ->
  fetchall c = inr rows ->
  value (read_resource w uri_str st) =
    inr (join newline
           (join "," columns :: map (fun row => join "," (map py_str row)) rows))
  /\ state (read_resource w uri_str st) = st
  /\ (rows = [] -> value (read_resource w uri_str st) = inr (join "," columns)).
Proof.
  intros Hc Hg Hu Hm Hd Hf.
  assert (Hmain : value (read_resource w uri_str st) =
                    inr (join newline
                           (join "," columns
                            :: map (fun row => join "," (map py_str row)) rows))
                  /\ state (read_resource w uri_str st) = st).
  { unfold read_resource.
    rewrite bind_get_state, Hc. cbn [negb]. rewrite Hg, bind_ret, Hu. cbn [negb].
    use_try_with_cursor H.
    assert (Hv : value (with_cursor w config
                   (PStr ("SELECT * FROM " +:+ table_of_uri uri_str +:+ " LIMIT 100"))
                   (fun cursor0 =>
                      columns0 ← columns_of cursor0;
                      rows0 ← lift (fetchall cursor0);
                      ret (format_rows columns0 rows0)) st)
                 = inr (format_rows columns rows)).
    { unfold with_cursor, leaving, columns_of. rewrite Hm, Hd, Hf. reflexivity. }
    rewrite Hv in H. destruct H as (-> & -> & _). split; reflexivity. }
  destruct Hmain as [Hv Hs]. repeat split; [exact Hv | exact Hs |].
  intros ->. rewrite Hv. reflexivity.
Qed.

Lemma read_resource_format_witness :
  value (read_resource live_world "mysql://t/data" connected_state) =
    inr ("a,b" +:+ newline +:+ "1,x" +:+ newline +:+ "2,y").
Proof.
  apply (read_resource_format live_world connected_state sample_config
           "mysql://t/data" sample_cursor ["a"; "b"]
           [[PInt 1; PStr "x"]; [PInt 2; PStr "y"]]); reflexivity.
Defined.

(** ** connect *)

Lemma overrides_effective (base : db_config) (arguments : gmap string pyval) (p : Z) :
  override arguments "database" set_database
    (override arguments "password" set_password
       (override arguments "user" set_user
          (set_port p (override arguments "host" set_host base))))
  = effective_config base arguments p.
Proof.
  destruct base. unfold override, effective_config.
  destruct (arguments !! "host"), (arguments !! "user"),
    (arguments !! "password"), (arguments !! "database"); reflexivity.
Qed.

(** [connect] once the configuration is loaded and the port converted: the
    probe, and what becomes of its outcome. *)
Lemma tool_connect_probe (w : world) (arguments : gmap string pyval)
    (st : ConnectionState) (base : db_config) (p : Z) :
  get_db_config (environ w) = inr base ->
  port_argument base arguments = inr p ->
  let config := effective_config base arguments p in
  let d := {| details_host := host config; details_port := port config;
              details_user := user config; details_database := database config |} in
  let ok := text_content ("Successfully connected to MySQL at "
                          +:+ endpoint (host config) (port config) (user config)
                                (database config)) in
  tool_connect w arguments st =
    match mysql w config (PStr "SELECT 1") with
    | Refused (OperationalError m) =>
        {| value := inr (text_content ("Failed to connect to MySQL: " +:+ m));
           state := lost m st; opened := [(config, PStr "SELECT 1")] |}
    | Refused (Error m) =>
        {| value := inr (text_content ("Database error: " +:+ m));
           state := lost m st; opened := [(config, PStr "SELECT 1")] |}
    | Refused e =>
        {| value := inl e; state := st; opened := [(config, PStr "SELECT 1")] |}
    | Served _ None =>
        {| value := inr ok; state := established d;
           opened := [(config, PStr "SELECT 1")] |}
    | Served _ (Some (OperationalError m)) =>
        {| value := inr (text_content ("Failed to connect to MySQL: " +:+ m));
           state := lost m (established d); opened := [(config, PStr "SELECT 1")] |}
    | Served _ (Some (Error m)) =>
        {| value := inr (text_content ("Database error: " +:+ m));
           state := lost m (established d); opened := [(config, PStr "SELECT 1")] |}
    | Served _ (Some e) =>
        {| value := inl e; state := established d;
           opened := [(config, PStr "SELECT 1")] |}
    end.
Proof.
  intros Hg Hp. cbv zeta. unfold tool_connect.
  rewrite Hg, try_bind_ret. cbv zeta.
  rewrite <- (overrides_effective base arguments p).
  unfold port_argument in Hp. unfold override_port.
  destruct (arguments !! "port") as [v |].
  - rewrite Hp. run_handler.
    destruct (mysql w _ _) as [e | c [e |]]; [destruct e | destruct e |]; reflexivity.
  - injection Hp as <-. run_handler.
    replace (set_port (port base) (override arguments "host" set_host base))
      with (override arguments "host" set_host base)
      by (destruct base; unfold override; destruct (arguments !! "host"); reflexivity).
    destruct (mysql w _ _) as [e | c [e |]]; [destruct e | destruct e |]; reflexivity.
Qed.



(** X8. Whenever [connect] returns with the flag raised, its text is
    "Successfully connected to MySQL at X" for some X, and a
    [connection_status] that follows, in any world and with any arguments,
    answers "Connected to MySQL at X" with the same X, changing nothing. *)
Theorem connect_then_status (w : world) (arguments : gmap string pyval)
    (st : ConnectionState) (t : list TextContent) :
  let o := call_tool w "connect" arguments st in
  value o = inr t ->
  is_connected (state o) = true ->
  exists x : string,
    t = text_content ("Successfully connected to MySQL at " +:+ x)
    /\ forall (w' : world) (arguments' : gmap string pyval),
         call_tool w' "connection_status" arguments' (state o) =
           {| value := inr (text_content ("Connected to MySQL at " +:+ x));
              state := state o; opened := [] |}.
Proof.
  cbv zeta. change (call_tool w "connect" arguments st) with (tool_connect w arguments st).
  destruct (get_db_config (environ w)) as [e | base] eqn:Hg.
  { unfold tool_connect. rewrite Hg. apply get_db_config_raises in Hg.
    rewrite try_bind_raise_unhandled by (destruct e; try discriminate; reflexivity).
    discriminate. }
  destruct (port_argument base arguments) as [e | p] eqn:Hp.
  { unfold tool_connect. rewrite Hg, try_bind_ret. cbv zeta.
    unfold port_argument in Hp. unfold override_port.
    destruct (arguments !! "port") as [v |]; [|discriminate Hp].
    rewrite Hp. apply py_int_raises in Hp.
    unfold try_except. unfold mbind at 1 2, M_bind, bind. rewrite bind_raise. cbn.
    destruct Hp as [-> | Hp]; [discriminate|].
    destruct e; try discriminate Hp; discriminate. }
  rewrite (tool_connect_probe w arguments st base p Hg Hp). cbv zeta.
  destruct (mysql w _ _) as [e | c [e |]]; [destruct e | destruct e |];
    cbn [value state]; try discriminate.
  intros [= <-] _. eexists. split; [reflexivity|]. intros w' arguments'. reflexivity.
Qed.

Lemma connect_then_status_witness :
  exists x : string,
    text_content "Successfully connected to MySQL at localhost:3306 as u (database: d)"
      = text_content ("Successfully connected to MySQL at " +:+ x)
    /\ forall (w' : world) (arguments' : gmap string pyval),
         call_tool w' "connection_status" arguments'
           (state (call_tool live_world "connect" ∅ CONNECTION_STATE)) =
           {| value := inr (text_content ("Connected to MySQL at " +:+ x));
              state := state (call_tool live_world "connect" ∅ CONNECTION_STATE);
              opened := [] |}.
Proof.
  apply (connect_then_status live_world ∅ CONNECTION_STATE); reflexivity.
Defined.

(** X9. When the server refuses the probe of [connect] with a driver
    error, operational or not, the call returns a text with the driver's
    message ("Failed to connect to MySQL: m" for an OperationalError,
    "Database error: m" otherwise), lowers the flag and records the
    message; a [connection_status] that follows reports the message as the
    last error, unless the message is empty. *)
Theorem connect_refused (w : world) (arguments : gmap string pyval)
    (st : ConnectionState) (base : db_config) (p : Z) (m : string) :
  get_db_config (environ w) = inr base ->
  port_argument base arguments = inr p ->
  let o := call_tool w "connect" arguments st in
  let after :=
    {| is_connected := false; last_error := Some m;
       connection_details := connection_details st |} in
  let status :=
    text_content ("Not connected to MySQL."
                  +:+ (if String.eqb m "" then "" else " Last error: " +:+ m)) in
  (mysql w (effective_config base arguments p) (PStr "SELECT 1")
     = Refused (OperationalError m) ->
   value o = inr (text_content ("Failed to connect to MySQL: " +:+ m))
   /\ state o = after
   /\ forall w' arguments',
        value (call_tool w' "connection_status" arguments' (state o)) = inr status)
  /\ (mysql w (effective_config base arguments p) (PStr "SELECT 1")
        = Refused (Error m) ->
      value o = inr (text_content ("Database error: " +:+ m))
      /\ state o = after
      /\ forall w' arguments',
           value (call_tool w' "connection_status" arguments' (state o)) = inr status).
Proof.
  intros Hg Hp. cbv zeta.
  change (call_tool w "connect" arguments st) with (tool_connect w arguments st).
  rewrite (tool_connect_probe w arguments st base p Hg Hp). cbv zeta.
  split; intros ->; (split; [reflexivity | split; [reflexivity|]]);
    intros w' arguments'; cbn [state];
    change (call_tool w' "connection_status" arguments' (lost m st))
      with (tool_connection_status (lost m st));
    unfold tool_connection_status; rewrite bind_get_state;
    cbn [lost is_connected last_error truthy];
    destruct (String.eqb m ""); reflexivity.
Qed.

Lemma connect_refused_witness :
  let o := call_tool (unreachable_world "2003: Can't connect") "connect" ∅
             CONNECTION_STATE in
  value o = inr (text_content "Failed to connect to MySQL: 2003: Can't connect")
  /\ state o = {| is_connected := false; last_error := Some "2003: Can't connect";
                  connection_details := None |}
  /\ forall w' arguments',
       value (call_tool w' "connection_status" arguments' (state o)) =
         inr (text_content "Not connected to MySQL. Last error: 2003: Can't connect").
Proof.
  destruct (connect_refused (unreachable_world "2003: Can't connect") ∅
              CONNECTION_STATE sample_config 3306 "2003: Can't connect")
    as [Hop _]; [reflexivity | reflexivity |].
  apply Hop. reflexivity.
Defined.



(** X11. When the environment does not yield a configuration, [connect]
    raises the loader's ValueError whatever its arguments are, so overrides
    cannot stand in for missing variables; and on a raised flag
    [list_resources], [read_resource] and [execute_sql] raise it as well.
    Nothing is opened and the state is untouched. *)
Theorem broken_environment (w : world) (st : ConnectionState) (e : exn)
    (arguments : gmap string pyval) (uri_str : string) :
  get_db_config (environ w) = inl e ->
  call_tool w "connect" arguments st = {| value := inl e; state := st; opened := [] |}
  /\ (is_connected st = true ->
      list_resources w st = {| value := inl e; state := st; opened := [] |}
      /\ read_resource w uri_str st = {| value := inl e; state := st; opened := [] |}
      /\ (truthy (default PNone (arguments !! "query")) = true ->
          call_tool w "execute_sql" arguments st =
            {| value := inl e; state := st; opened := [] |})).
Proof.
  intros Hg. pose proof (get_db_config_raises _ _ Hg) as He.
  assert (Hunhandled :
            forall A (h1 h2 : string -> option (M A)),
              match e with
              | OperationalError m => h1 m
              | Error m => h2 m
              | _ => None
              end = None).
  { intros A h1 h2. destruct e; try discriminate He; reflexivity. }
  split.
  - change (call_tool w "connect" arguments st) with (tool_connect w arguments st).
    unfold tool_connect. rewrite Hg.
    rewrite try_bind_raise_unhandled; [reflexivity | apply Hunhandled].
  - intros Hc. split; [|split].
    + unfold list_resources. rewrite bind_get_state, Hc. cbn [negb].
      rewrite Hg, bind_raise. reflexivity.
    + unfold read_resource. rewrite bind_get_state, Hc. cbn [negb].
      rewrite Hg, bind_raise. reflexivity.
    + intros Ht.
      change (call_tool w "execute_sql" arguments st)
        with (tool_execute_sql w arguments st).
      unfold tool_execute_sql. rewrite bind_get_state, Hc. cbn [negb].
      rewrite Ht. cbn [negb]. rewrite Hg.
      rewrite try_bind_raise_unhandled; [reflexivity | apply Hunhandled].
Qed.

Lemma broken_environment_witness :
  call_tool {| environ := {["MYSQL_USER" := "u"]};
               mysql := fun _ _ => Served sample_cursor None;
               any_url := Some |}
    "connect"
    (<["user" := PStr "u"]> (<["password" := PStr "p"]> {["database" := PStr "d"]}))
    CONNECTION_STATE =
    {| value := inl (ValueError "Missing required database configuration");
       state := CONNECTION_STATE; opened := [] |}.
Proof.
  apply (broken_environment
           {| environ := {["MYSQL_USER" := "u"]};
              mysql := fun _ _ => Served sample_cursor None;
              any_url := Some |}
           CONNECTION_STATE
           (ValueError "Missing required database configuration")
           (<["user" := PStr "u"]> (<["password" := PStr "p"]> {["database" := PStr "d"]}))
           "mysql://t/data").
  reflexivity.
Defined.

(** ** disconnect and connection_status *)

(** X12. After [disconnect], from any state, [connection_status] answers
    exactly "Not connected to MySQL." (no stale error is shown), a second
    [disconnect] changes nothing more, and the stored details are the ones
    that were there before. *)
Theorem disconnect_then_status (w w' : world) (arguments arguments' : gmap string pyval)
    (st : ConnectionState) :
  let st1 := state (call_tool w "disconnect" arguments st) in
  call_tool w' "connection_status" arguments' st1 =
    {| value := inr (text_content "Not connected to MySQL."); state := st1; opened := [] |}
  /\ state (call_tool w' "disconnect" arguments' st1) = st1
  /\ connection_details st1 = connection_details st.
Proof. repeat split. Qed.

(** ** execute_sql: the three kinds of statement *)

Lemma outcome_ext {A} (o : outcome A) (v : exn + A) (s : ConnectionState)
    (l : list (db_config * pyval)) :
  value o = v -> state o = s -> opened o = l ->
  o = {| value := v; state := s; opened := l |}.
Proof. intros <- <- <-. reflexivity. Qed.

(** In [H], as [use_try_with_cursor] leaves it, replace the result of the
    [with] block by [res], which is then to be proved. *)
Ltac block_value H res :=
  match type of H with
  | match value ?r with inl _ => _ | inr _ => _ end =>
      let Hv := fresh "Hv" in
      assert (Hv : value r = res); [| rewrite Hv in H; clear Hv]
  end.

Lemma get_db_config_database (environ : gmap string string) (config : db_config) :
  get_db_config environ = inr config ->
  database config = getenv environ "MYSQL_DATABASE".
Proof.
  unfold get_db_config.
  destruct (int_of_str _); [discriminate|].
  destruct (int_of_str _); [discriminate|].
  cbv zeta. destruct (negb _); [discriminate|]. intros [= <-]. reflexivity.
Qed.

Lemma first_cells_names (names : list string) (st : ConnectionState) :
  first_cells (map (fun n => [PStr n]) names) st =
    {| value := inr (map PStr names); state := st; opened := [] |}.
Proof.
  induction names as [| n names IH]; [reflexivity|].
  cbn [map first_cells]. unfold mbind, M_bind, bind, ret. rewrite IH. reflexivity.
Qed.

Lemma all_text_names (names : list string) (st : ConnectionState) :
  all_text (map PStr names) st = {| value := inr names; state := st; opened := [] |}.
Proof.
  induction names as [| n names IH]; [reflexivity|].
  cbn [map all_text as_text]. unfold mbind, M_bind, bind, ret. cbn [value state opened].
  rewrite IH. reflexivity.
Qed.

Lemma show_is_truthy (q : string) :
  startswith (upper (strip q)) "SHOW TABLES" = true -> truthy (PStr q) = true.
Proof. destruct q; [intros H; vm_compute in H; discriminate H | reflexivity]. Qed.

(** X13. While connected, a statement whose stripped, upper-cased text
    starts with SHOW TABLES and that the server executes is answered with
    the line "Tables_in_<d>", [d] being the database named by the
    environment (MYSQL_DATABASE), followed by one line per table; the state
    is untouched. *)
Theorem show_tables_format (w : world) (arguments : gmap string pyval)
    (st : ConnectionState) (q : string) (config : db_config) (c : cursor)
    (d : string) (names : list string) :
  is_connected st = true ->
  arguments !! "query" = Some (PStr q) ->
  startswith (upper (strip q)) "SHOW TABLES" = true ->
  get_db_config (environ w) = inr config ->
  environ w !! "MYSQL_DATABASE" = Some d ->
  mysql w config (PStr q) = Served c None ->
  fetchall c = inr (map (fun n => [PStr n]) names) ->
  value (call_tool w "execute_sql" arguments st) =
    inr (text_content (join newline (("Tables_in_" +:+ d) :: names)))
  /\ state (call_tool w "execute_sql" arguments st) = st.
Proof.
  intros Hc Hq Hshow Hg Hd Hm Hf.
  change (call_tool w "execute_sql" arguments st) with (tool_execute_sql w arguments st).
  unfold tool_execute_sql. rewrite bind_get_state, Hc, Hq. cbn [negb].
  change (default PNone (Some (PStr q))) with (PStr q).
  rewrite (show_is_truthy q Hshow). cbn [negb]. rewrite Hg, try_bind_ret.
  use_try_with_cursor H.
  block_value H (@inr exn _ (text_content (join newline (("Tables_in_" +:+ d) :: names)))).
  { unfold with_cursor, leaving. rewrite Hm. cbn [value].
    unfold mbind at 1, M_bind, bind at 1. cbn [as_text ret value state].
    rewrite Hshow, Hf.
    rewrite (get_db_config_database _ _ Hg). unfold getenv. rewrite Hd.
    unfold mbind, M_bind, bind. cbn [lift as_text ret value state].
    rewrite first_cells_names. cbn [value state].
    rewrite all_text_names. reflexivity. }
  destruct H as (-> & -> & _). split; reflexivity.
Qed.

Lemma show_tables_format_witness :
  value (call_tool (tables_world ["users"; "orders"]) "execute_sql"
           {["query" := PStr "show tables"]} connected_state) =
    inr (text_content ("Tables_in_d" +:+ newline +:+ "users" +:+ newline +:+ "orders")).
Proof.
  apply (show_tables_format (tables_world ["users"; "orders"])
           {["query" := PStr "show tables"]} connected_state "show tables"
           sample_config
           {| description := Some ["Tables_in_d"];
              fetchall := inr [[PStr "users"]; [PStr "orders"]];
              rowcount := 2; commit := None |}
           "d" ["users"; "orders"]); reflexivity.
Defined.



(** X15. When the driver answers [execute_sql] with an OperationalError,
    the call returns "Connection lost: m. Please reconnect using the
    'connect' tool.", lowers the flag and records the message; from the
    state it leaves, every further [execute_sql] is refused with the
    not-connected text without going to the database. *)
Theorem execute_sql_connection_lost (w : world) (arguments : gmap string pyval)
    (st : ConnectionState) (query : pyval) (config : db_config) (m : string) :
  is_connected st = true ->
  arguments !! "query" = Some query ->
  truthy query = true ->
  get_db_config (environ w) = inr config ->
  session_raises (mysql w config query) (OperationalError m) ->
  let o := call_tool w "execute_sql" arguments st in
  value o = inr (text_content ("Connection lost: " +:+ m
                               +:+ ". Please reconnect using the 'connect' tool."))
  /\ state o = {| is_connected := false; last_error := Some m;
                  connection_details := connection_details st |}
  /\ forall (w' : world) (arguments' : gmap string pyval),
       call_tool w' "execute_sql" arguments' (state o) =
         {| value := inr (text_content
                            "Not connected to MySQL. Please use the 'connect' tool first.");
            state := state o; opened := [] |}.
Proof.
  intros Hc Hq Ht Hg Hr. cbv zeta.
  change (call_tool w "execute_sql" arguments st) with (tool_execute_sql w arguments st).
  assert (Hmain : value (tool_execute_sql w arguments st) =
                    inr (text_content ("Connection lost: " +:+ m
                           +:+ ". Please reconnect using the 'connect' tool."))
                  /\ state (tool_execute_sql w arguments st) = lost m st).
  { unfold tool_execute_sql. rewrite bind_get_state, Hc, Hq. cbn [negb].
    change (default PNone (Some query)) with query. rewrite Ht. cbn [negb].
    rewrite Hg, try_bind_ret. use_try_with_cursor H.
    rewrite (with_cursor_session_raises _ _ _ _ _ _ Hr) in H.
    destruct H as (-> & -> & _). split; reflexivity. }
  destruct Hmain as [Hv Hs]. split; [exact Hv | split; [exact Hs|]].
  intros w' arguments'. rewrite Hs. reflexivity.
Qed.

Lemma execute_sql_connection_lost_witness :
  let o := call_tool (unreachable_world "gone") "execute_sql"
             {["query" := PStr "SELECT 1"]} connected_state in
  value o = inr (text_content
                   "Connection lost: gone. Please reconnect using the 'connect' tool.")
  /\ state o = {| is_connected := false; last_error := Some "gone";
                  connection_details := Some sample_details |}
  /\ forall (w' : world) (arguments' : gmap string pyval),
       call_tool w' "execute_sql" arguments' (state o) =
         {| value := inr (text_content
                            "Not connected to MySQL. Please use the 'connect' tool first.");
            state := state o; opened := [] |}.
Proof.
  apply (execute_sql_connection_lost (unreachable_world "gone")
           {["query" := PStr "SELECT 1"]} connected_state (PStr "SELECT 1")
           sample_config "gone"); try reflexivity.
  left. reflexivity.
Defined.

(** X16. A statement that starts with SELECT but leaves the cursor without
    a description (no result set) is not answered with a text: building the
    header raises a TypeError, which is no driver error, so it leaves
    [execute_sql]; the statement has been sent and the state is untouched. *)
Theorem select_without_result_set (w : world) (arguments : gmap string pyval)
    (st : ConnectionState) (q : string) (config : db_config) (c : cursor) :
  is_connected st = true ->
  arguments !! "query" = Some (PStr q) ->
  startswith (upper (strip q)) "SELECT" = true ->
  get_db_config (environ w) = inr config ->
  mysql w config (PStr q) = Served c None ->
  description c = None ->
  call_tool w "execute_sql" arguments st =
    {| value := inl TypeError; state := st; opened := [(config, PStr q)] |}.
Proof.
  intros Hc Hq Hsel Hg Hm Hd.
  change (call_tool w "execute_sql" arguments st) with (tool_execute_sql w arguments st).
  unfold tool_execute_sql. rewrite bind_get_state, Hc, Hq. cbn [negb].
  change (default PNone (Some (PStr q))) with (PStr q).
  rewrite (select_is_truthy q Hsel). cbn [negb]. rewrite Hg, try_bind_ret.
  use_try_with_cursor H.
  block_value H (@inl exn (list TextContent) TypeError).
  { unfold with_cursor, leaving. rewrite Hm. cbn [value].
    unfold mbind at 1, M_bind, bind at 1. cbn [as_text ret value state].
    rewrite (select_not_show _ Hsel), Hsel. unfold columns_of. rewrite Hd. reflexivity. }
  cbv iota in H. destruct H as (Hv & Hs & Ho).
  apply outcome_ext; assumption.
Qed.

Lemma select_without_result_set_witness :
  call_tool {| environ := sample_environ;
               mysql := fun _ _ =>
                 Served {| description := None; fetchall := inr [];
                           rowcount := 1; commit := None |} None;
               any_url := Some |}
    "execute_sql" {["query" := PStr "SELECT 1 INTO @x"]} connected_state =
    {| value := inl TypeError; state := connected_state;
       opened := [(sample_config, PStr "SELECT 1 INTO @x")] |}.
Proof.
  apply (select_without_result_set _ _ connected_state "SELECT 1 INTO @x" sample_config
           {| description := None; fetchall := inr []; rowcount := 1; commit := None |});
    reflexivity.
Defined.

(** ** The tool catalog and the dispatcher *)

Lemma listed_names (n : string) :
  In n (map Tool.name list_tools) <->
  n = "execute_sql" \/ n = "connect" \/ n = "disconnect" \/ n = "connection_status".
Proof. cbn. intuition congruence. Qed.

(** X17. [call_tool] knows exactly the tools that [list_tools] lists: a
    name that is not listed raises the ValueError "Unknown tool: <name>"
    in every world, with every argument and from every state, opening
    nothing and changing nothing; and a name for which this error is the
    result in all circumstances is not listed. *)
Theorem call_tool_knows_the_listed_tools (n : string) :
  (~ In n (map Tool.name list_tools) ->
   forall (w : world) (arguments : gmap string pyval) (st : ConnectionState),
     call_tool w n arguments st =
       {| value := inl (ValueError ("Unknown tool: " +:+ n)); state := st; opened := [] |})
  /\ ((forall (w : world) (arguments : gmap string pyval) (st : ConnectionState),
         value (call_tool w n arguments st) = inl (ValueError ("Unknown tool: " +:+ n)))
      -> ~ In n (map Tool.name list_tools)).
Proof.
  split.
  - intros Hn w arguments st. rewrite listed_names in Hn. unfold call_tool.
    destruct (String.eqb_spec n "connect"); [tauto|].
    destruct (String.eqb_spec n "disconnect"); [tauto|].
    destruct (String.eqb_spec n "connection_status"); [tauto|].
    destruct (String.eqb_spec n "execute_sql"); [tauto|].
    reflexivity.
  - intros Hall Hin. rewrite listed_names in Hin.
    specialize (Hall live_world ∅ CONNECTION_STATE).
    destruct Hin as [-> | [-> | [-> | ->]]]; vm_compute in Hall; discriminate Hall.
Qed.

Lemma call_tool_knows_the_listed_tools_witness :
  call_tool live_world "drop_database" ∅ connected_state =
    {| value := inl (ValueError "Unknown tool: drop_database");
       state := connected_state; opened := [] |}.
Proof.
  destruct (call_tool_knows_the_listed_tools "drop_database") as [H _].
  apply H. rewrite listed_names. intros [H1 | [H1 | [H1 | H1]]]; discriminate H1.
Defined.

(** X18. An argument whose key is not among the properties that
    [list_tools] declares for a tool has no effect on that tool: the call
    returns the same result, leaves the same state and opens the same
    connection with or without it. *)
Theorem undeclared_arguments_are_ignored (t : Tool.t) (k : string) (v : pyval) :
  In t list_tools ->
  ~ In k (map fst (Schema.properties (Tool.inputSchema t))) ->
  forall (w : world) (arguments : gmap string pyval) (st : ConnectionState),
    call_tool w (Tool.name t) (<[k := v]> arguments) st
    = call_tool w (Tool.name t) arguments st.
Proof.
  intros Hin Hk w arguments st.
  destruct Hin as [<- | [<- | [<- | [<- | []]]]]; cbn in Hk |- *.
  - unfold tool_execute_sql.
    rewrite lookup_insert_ne by (intros ->; apply Hk; auto 10). reflexivity.
  - unfold tool_connect, override, override_port.
    rewrite !lookup_insert_ne by (intros ->; apply Hk; auto 10). reflexivity.
  - reflexivity.
  - reflexivity.
Qed.

Lemma undeclared_arguments_are_ignored_witness :
  call_tool live_world "connect" (<["charset" := PStr "latin1"]> ∅) CONNECTION_STATE
  = call_tool live_world "connect" ∅ CONNECTION_STATE.
Proof.
  apply (undeclared_arguments_are_ignored
           {| Tool.name := "connect";
              Tool.description := "Connect to the MySQL server";
              Tool.inputSchema :=
                {| Schema.type := "object";
                   Schema.properties :=
                     [("host", {| Property.type := "string";
                                  Property.description :=
                                    "MySQL server hostname (defaults to env var or localhost)" |});
                      ("port", {| Property.type := "integer";
                                  Property.description :=
                                    "MySQL server port (defaults to env var or 3306)" |});
                      ("user", {| Property.type := "string";
                                  Property.description :=
                                    "MySQL username (defaults to env var)" |});
                      ("password", {| Property.type := "string";
                                      Property.description :=
                                        "MySQL password (defaults to env var)" |});
                      ("database", {| Property.type := "string";
                                      Property.description :=
                                        "MySQL database name (defaults to env var)" |})];
                   Schema.required := [] |} |}
           "charset" (PStr "latin1")).
  - right. left. reflexivity.
  - cbn. intros [H | [H | [H | [H | [H | []]]]]]; discriminate H.
Defined.

(** ** What no request does *)

Lemma try_block_opened {A} (w : world) (config : db_config) (stmt : pyval)
    (body : cursor -> M A) (h : exn -> option (M A)) (st : ConnectionState) :
  (forall c, pure_M (body c)) ->
  (forall e k, h e = Some k -> opened (k st) = []) ->
  opened (try_except (with_cursor w config stmt body) h st) = [(config, stmt)].
Proof.
  intros Hb Hh. pose proof (try_with_cursor w config stmt body h st Hb) as H.
  cbv zeta in H. destruct (value (with_cursor w config stmt body st)) as [e | a].
  - destruct (h e) as [k |] eqn:Hk.
    + destruct H as (_ & _ & ->). rewrite (Hh e k Hk). reflexivity.
    + apply H.
  - apply H.
Qed.

Lemma list_resources_opened (w : world) (st : ConnectionState) :
  opened (list_resources w st) = []
  \/ exists config, opened (list_resources w st) = [(config, PStr "SHOW TABLES")].
Proof.
  unfold list_resources. rewrite bind_get_state.
  destruct (is_connected st); cbn [negb]; [|left; reflexivity].
  destruct (get_db_config (environ w)) as [e | config]; [left; reflexivity|].
  rewrite bind_ret. right. exists config. apply try_block_opened.
  - intros c. auto with pureM.
  - intros e k. destruct e; intros [= <-]; reflexivity.
Qed.

Lemma read_resource_opened_cases (w : world) (uri_str : string) (st : ConnectionState) :
  opened (read_resource w uri_str st) = []
  \/ exists x, opened (read_resource w uri_str st) = [x].
Proof.
  unfold read_resource. rewrite bind_get_state.
  destruct (is_connected st); cbn [negb]; [|left; reflexivity].
  destruct (get_db_config (environ w)) as [e | config]; [left; reflexivity|].
  rewrite bind_ret.
  destruct (startswith uri_str "mysql://"); cbn [negb]; [|left; reflexivity].
  right. eexists. apply try_block_opened.
  - intros c. auto with pureM.
  - intros e k. destruct e; intros [= <-]; reflexivity.
Qed.

Lemma tool_execute_sql_opened_cases (w : world) (arguments : gmap string pyval)
    (st : ConnectionState) :
  opened (tool_execute_sql w arguments st) = []
  \/ exists x, opened (tool_execute_sql w arguments st) = [x].
Proof.
  unfold tool_execute_sql. rewrite bind_get_state.
  destruct (is_connected st); cbn [negb]; [|left; reflexivity].
  destruct (truthy _); cbn [negb]; [|left; reflexivity].
  destruct (get_db_config (environ w)) as [e | config] eqn:Hg.
  - left. apply get_db_config_raises in Hg.
    rewrite try_bind_raise_unhandled; [reflexivity|].
    destruct e; try discriminate; reflexivity.
  - rewrite try_bind_ret. right. eexists. apply try_block_opened.
    + intros c. auto with pureM.
    + intros e k. destruct e; intros [= <-]; reflexivity.
Qed.

Lemma tool_connect_opened (w : world) (arguments : gmap string pyval)
    (st : ConnectionState) :
  opened (tool_connect w arguments st) = []
  \/ exists config, opened (tool_connect w arguments st) = [(config, PStr "SELECT 1")].
Proof.
  destruct (get_db_config (environ w)) as [e | base] eqn:Hg.
  { left. unfold tool_connect. rewrite Hg. apply get_db_config_raises in Hg.
    rewrite try_bind_raise_unhandled; [reflexivity|].
    destruct e; try discriminate; reflexivity. }
  destruct (port_argument base arguments) as [e | p] eqn:Hp.
  { left. unfold tool_connect. rewrite Hg, try_bind_ret. cbv zeta.
    unfold port_argument in Hp. unfold override_port.
    destruct (arguments !! "port") as [v |]; [|discriminate Hp].
    rewrite Hp. apply py_int_raises in Hp.
    unfold try_except. unfold mbind at 1 2, M_bind, bind. rewrite bind_raise. cbn.
    destruct Hp as [-> | Hp]; [reflexivity|].
    destruct e; try discriminate Hp; reflexivity. }
  right. exists (effective_config base arguments p).
  rewrite (tool_connect_probe w arguments st base p Hg Hp). cbv zeta.
  destruct (mysql w _ _) as [e | c [e |]]; [destruct e | destruct e |]; reflexivity.
Qed.

(** X19. No request opens more than one connection.  The only statement
    [list_resources] ever sends is "SHOW TABLES", the only one [connect]
    ever sends is "SELECT 1", and [disconnect] and [connection_status] open
    no connection at all. *)
Theorem one_connection_per_request (w : world) (st : ConnectionState) :
  (forall r : request, (length (connections w r st) <= 1)%nat)
  /\ (forall x, In x (connections w ListResources st) -> snd x = PStr "SHOW TABLES")
  /\ (forall arguments x,
        In x (connections w (CallTool "connect" arguments) st) -> snd x = PStr "SELECT 1")
  /\ (forall arguments,
        connections w (CallTool "disconnect" arguments) st = []
        /\ connections w (CallTool "connection_status" arguments) st = []).
Proof.
  split; [|split; [|split]].
  - intros [| u | n arguments]; cbn [connections].
    + destruct (list_resources_opened w st) as [-> | [x ->]]; cbn; lia.
    + destruct (read_resource_opened_cases w u st) as [-> | [x ->]]; cbn; lia.
    + unfold call_tool.
      destruct (String.eqb n "connect").
      { destruct (tool_connect_opened w arguments st) as [-> | [x ->]]; cbn; lia. }
      destruct (String.eqb n "disconnect"); [unfold tool_disconnect; run_handler; lia|].
      destruct (String.eqb n "connection_status").
      { unfold tool_connection_status. rewrite bind_get_state.
        destruct (is_connected st); [destruct (connection_details st)|];
          run_handler; lia. }
      destruct (String.eqb n "execute_sql").
      { destruct (tool_execute_sql_opened_cases w arguments st) as [-> | [x ->]];
          cbn; lia. }
      run_handler. lia.
  - intros x. cbn [connections].
    destruct (list_resources_opened w st) as [-> | [config ->]]; cbn; [tauto|].
    intros [<- | []]. reflexivity.
  - intros arguments x. cbn [connections].
    change (call_tool w "connect" arguments st) with (tool_connect w arguments st).
    destruct (tool_connect_opened w arguments st) as [-> | [config ->]]; cbn; [tauto|].
    intros [<- | []]. reflexivity.
  - intros arguments. split; [reflexivity|].
    cbn [connections].
    change (call_tool w "connection_status" arguments st) with (tool_connection_status st).
    unfold tool_connection_status. rewrite bind_get_state.
    destruct (is_connected st); [destruct (connection_details st)|]; reflexivity.
Qed.

(** X20. Only [connect] raises the flag: after any other request
    [is_connected] is true only if it was true before. *)
Theorem only_connect_raises_the_flag (w : world) (r : request) (st : ConnectionState) :
  (forall arguments, r <> CallTool "connect" arguments) ->
  is_connected (step w r st) = true ->
  is_connected st = true.
Proof.
  intros Hr. destruct r as [| u | n arguments]; cbn [step].
  - destruct (list_resources_state w st) as [-> | [m ->]]; [tauto | discriminate].
  - destruct (read_resource_state w u st) as [-> | [m ->]]; [tauto | discriminate].
  - unfold call_tool.
    destruct (String.eqb_spec n "connect") as [-> | _].
    { exfalso. apply (Hr arguments). reflexivity. }
    destruct (String.eqb n "disconnect"); [discriminate|].
    destruct (String.eqb n "connection_status").
    { unfold tool_connection_status. rewrite bind_get_state.
      destruct (is_connected st) eqn:Hc; [intros _; reflexivity|].
      cbn. rewrite Hc. discriminate. }
    destruct (String.eqb n "execute_sql").
    { destruct (tool_execute_sql_state w arguments st) as [-> | [m ->]];
        [tauto | discriminate]. }
    tauto.
Qed.

Lemma only_connect_raises_the_flag_witness :
  is_connected connected_state = true.
Proof.
  apply (only_connect_raises_the_flag live_world
           (CallTool "execute_sql" {["query" := PStr "SELECT 1"]}) connected_state).
  - intros arguments H. discriminate H.
  - reflexivity.
Defined.

Lemma tool_connection_status_state (st : ConnectionState) :
  state (tool_connection_status st) = st.
Proof.
  unfold tool_connection_status. rewrite bind_get_state.
  destruct (is_connected st); [destruct (connection_details st)|]; reflexivity.
Qed.

Lemma step_keeps_details (w : world) (r : request) (st : ConnectionState) :
  connection_details st <> None -> connection_details (step w r st) <> None.
Proof.
  intros Hd. destruct r as [| u | n arguments]; cbn [step].
  - destruct (list_resources_state w st) as [-> | [m ->]]; exact Hd.
  - destruct (read_resource_state w u st) as [-> | [m ->]]; exact Hd.
  - unfold call_tool.
    destruct (String.eqb n "connect").
    { destruct (tool_connect_state w arguments st)
        as [-> | [[m ->] | [[d ->] | (m & d & ->)]]];
        first [exact Hd | discriminate]. }
    destruct (String.eqb n "disconnect"); [exact Hd|].
    destruct (String.eqb n "connection_status").
    { rewrite tool_connection_status_state. exact Hd. }
    destruct (String.eqb n "execute_sql").
    { destruct (tool_execute_sql_state w arguments st) as [-> | [m ->]]; exact Hd. }
    exact Hd.
Qed.

(** X21. Nothing ever clears the stored details: once
    [connection_details] is non-null it is non-null after every further
    sequence of requests, whatever the worlds they run in. *)
Theorem details_are_never_cleared (trace : list (world * request))
    (st : ConnectionState) :
  connection_details st <> None ->
  connection_details (run trace st) <> None.
Proof.
  revert st. induction trace as [| [w r] rest IH]; intros st Hd; cbn [run].
  - exact Hd.
  - apply IH, step_keeps_details, Hd.
Qed.

Lemma details_are_never_cleared_witness :
  connection_details
    (run [(live_world, CallTool "disconnect" ∅);
          (unreachable_world "gone", CallTool "connect" ∅)] connected_state) <> None.
Proof.
  apply (details_are_never_cleared
           [(live_world, CallTool "disconnect" ∅);
            (unreachable_world "gone", CallTool "connect" ∅)] connected_state).
  discriminate.
Defined.

(** ** Startup *)

(** X22. Startup never fails, whatever the environment holds: [main]
    lowers the flag, clears the error, opens no connection and drops the
    error of a configuration that does not load; a [connection_status]
    right after it answers "Not connected to MySQL.". *)
Theorem main_always_starts (w : world) (st : ConnectionState) :
  main w st =
    {| value := inr tt;
       state := {| is_connected := false; last_error := None;
                   connection_details := connection_details st |};
       opened := [] |}
  /\ forall (w' : world) (arguments : gmap string pyval),
       value (call_tool w' "connection_status" arguments (state (main w st)))
       = inr (text_content "Not connected to MySQL.").
Proof.
  assert (Hmain : main w st =
                    {| value := inr tt;
                       state := {| is_connected := false; last_error := None;
                                   connection_details := connection_details st |};
                       opened := [] |}).
  { unfold main. run_handler. destruct (get_db_config (environ w)); reflexivity. }
  split; [exact Hmain|]. intros w' arguments. rewrite Hmain. reflexivity.
Qed.

(** ** Quoting table names *)













(** ** What the loader returns *)

Lemma getenv_truthy (environ : gmap string string) (k : string) :
  truthy (getenv environ k) = true ->
  exists v, environ !! k = Some v /\ v <> "" /\ getenv environ k = PStr v.
Proof.
  unfold getenv. destruct (environ !! k) as [v |]; cbn; [|discriminate].
  destruct (String.eqb_spec v ""); [discriminate|]. intros _. eauto.
Qed.

(** X25. A configuration that the loader returns always carries a user, a
    password and a database that are non-empty strings taken from
    MYSQL_USER, MYSQL_PASSWORD and MYSQL_DATABASE, a host that is a string,
    and the warnings switched on. *)
Theorem loaded_config_has_credentials (environ : gmap string string)
    (config : db_config) :
  get_db_config environ = inr config ->
  exists h u pw d : string,
    host config = PStr h /\ user config = PStr u
    /\ password config = PStr pw /\ database config = PStr d
    /\ u <> "" /\ pw <> "" /\ d <> ""
    /\ environ !! "MYSQL_USER" = Some u
    /\ environ !! "MYSQL_PASSWORD" = Some pw
    /\ environ !! "MYSQL_DATABASE" = Some d
    /\ get_warnings config = true.
Proof.
  unfold get_db_config.
  destruct (int_of_str _); [discriminate|].
  destruct (int_of_str _); [discriminate|].
  cbv zeta. cbn [user password database].
  destruct (all _) eqn:Hall; cbn [negb]; [|discriminate].
  intros [= <-]. unfold all in Hall. cbn [forallb] in Hall.
  apply andb_prop in Hall as [Hu Hall]. apply andb_prop in Hall as [Hp Hall].
  apply andb_prop in Hall as [Hd _].
  destruct (getenv_truthy _ _ Hu) as (u & Hu1 & Hu2 & Hu3).
  destruct (getenv_truthy _ _ Hp) as (pw & Hp1 & Hp2 & Hp3).
  destruct (getenv_truthy _ _ Hd) as (d & Hd1 & Hd2 & Hd3).
  exists (getenv_or environ "MYSQL_HOST" "localhost"), u, pw, d.
  cbn [host user password database get_warnings].
  rewrite Hu3, Hp3, Hd3. repeat split; assumption.
Qed.

Lemma loaded_config_has_credentials_witness :
  exists h u pw d : string,
    host sample_config = PStr h /\ user sample_config = PStr u
    /\ password sample_config = PStr pw /\ database sample_config = PStr d
    /\ u <> "" /\ pw <> "" /\ d <> ""
    /\ sample_environ !! "MYSQL_USER" = Some u
    /\ sample_environ !! "MYSQL_PASSWORD" = Some pw
    /\ sample_environ !! "MYSQL_DATABASE" = Some d
    /\ get_warnings sample_config = true.
Proof. apply (loaded_config_has_credentials sample_environ sample_config). reflexivity. Defined.
